(** * video_pub.py: the stereo video publisher node

    A shallow embedding of [StereoVideoPublisher] and [main] from
    [video_publisher/video_pub.py].  The node's attributes are a record, the
    calls into rclpy, cv2 and cv_bridge are operations of a small state and
    exception monad that append to a trace of the calls made, and the spin
    loop is a fuelled iteration of the timer callback [tick]. *)

From Stdlib Require Import ZArith Floats String List Lia Bool.
From stdpp Require Import gmap strings list.

Local Open Scope Z_scope.

(** ** Data *)

(** A decoded frame as cv2 returns it: a rows x cols x 3 array of bytes. *)
Record Frame := mkFrame {
  rows : nat;
  cols : nat;
  pixels : list Z
}.

(** builtin_interfaces/Time, the result of [get_clock().now().to_msg()]. *)
Record Time := mkTime {
  sec : Z;
  nanosec : Z
}.

(** std_msgs/Header (ROS 2: a stamp and a frame id). *)
Record Header := mkHeader {
  stamp : Time;
  frame_id : string
}.

(** sensor_msgs/Image. *)
Record Image := mkImage {
  header : Header;
  height : nat;
  width : nat;
  encoding : string;
  is_bigendian : bool;
  step : nat;
  data : list Z
}.

Definition set_stamp (m : Image) (t : Time) : Image :=
  mkImage (mkHeader t (frame_id (header m)))
          (height m) (width m) (encoding m) (is_bigendian m) (step m) (data m).

Definition set_frame_id (m : Image) (s : string) : Image :=
  mkImage (mkHeader (stamp (header m)) s)
          (height m) (width m) (encoding m) (is_bigendian m) (step m) (data m).

(** The message [CvBridge.cv2_to_imgmsg] builds from an array: a default
    header around the frame's bytes. *)
Definition imgmsg_of_frame (f : Frame) (enc : string) : Image :=
  mkImage (mkHeader (mkTime 0 0) "")
          (rows f) (cols f) enc false
          (Nat.div (length (pixels f)) (rows f)) (pixels f).

(** The two streams, and the topic each is published on. *)
Inductive Side := SideL | SideR.

Definition topic (s : Side) : string :=
  match s with
  | SideL => "/camera/left/image_raw"
  | SideR => "/camera/right/image_raw"
  end.

(** The lines the node logs at info level:
    ["StereoVideoPublisher started"], ["Left:  <path>"], ["Right: <path>"],
    ["Publishing at <rate> Hz starting frame <n>"],
    ["End of one of the videos. Stopping."] and ["Published frame <n>"]. *)
Inductive LogLine :=
| LogStarted
| LogLeft (path : string)
| LogRight (path : string)
| LogPublishing (rate : float) (start : Z)
| LogEndOfVideo
| LogPublished (idx : Z).

(** The calls by which the program acts on what is outside the node, in
    program order.  The construction of the node object itself and the
    declaration and lookup of its parameters leave no event. *)
Inductive Event :=
| EvRclpyInit
| EvRclpyShutdown
| EvCreatePublisher (s : Side) (depth : Z)
| EvCreateTimer (period : float)
| EvDestroyNode
| EvOpen (s : Side) (path : string) (ok : bool)
| EvSeek (s : Side) (pos : Z)
| EvRead (s : Side) (ok : bool)
| EvRelease (s : Side)
| EvPublish (s : Side) (m : Image)
| EvLog (l : LogLine).

Inductive Exception :=
| RuntimeError (msg : string)
| TypeError (msg : string)
| ParameterNotDeclaredException (name : string)
| ZeroDivisionError.

(** ** cv2.VideoCapture

    A capture over a file is the list of frames the file decodes to, the
    index of the next frame, and whether the handle is open. *)
Record VideoCapture := mkCap {
  vc_frames : list Frame;
  vc_pos : nat;
  vc_opened : bool
}.

Definition isOpened (c : VideoCapture) : bool := vc_opened c.

(** [cap.read()]: the next frame and the advanced capture, or [(False, None)]
    and the capture as it was once the frames are exhausted or the handle is
    not open. *)
Definition read (c : VideoCapture) : bool * option Frame * VideoCapture :=
  if vc_opened c then
    match vc_frames c !! vc_pos c with
    | Some f => (true, Some f, mkCap (vc_frames c) (S (vc_pos c)) true)
    | None => (false, None, c)
    end
  else (false, None, c).

(** The largest frame number up to which every integer is a C double:
    2^53. *)
Definition exact_position_max : Z := 9007199254740992.

(** [cap.set(cv2.CAP_PROP_POS_FRAMES, n)].  cv2 takes the value as a C
    double.  A frame number up to 2^53 reaches the capture as it is, and the
    next read is of that frame, or fails when the file has no such frame.
    A larger one is rounded on the way, and where the capture stands after
    it is the backend's own matter: [far_seek], of which nothing is
    assumed. *)
Definition set_pos_frames (far_seek : Z -> list Frame -> nat)
    (c : VideoCapture) (n : Z) : VideoCapture :=
  if vc_opened c then
    mkCap (vc_frames c)
          (if n <=? exact_position_max then Z.to_nat n
           else far_seek n (vc_frames c))
          true
  else c.

(** [cap.release()]. *)
Definition release (c : VideoCapture) : VideoCapture :=
  mkCap (vc_frames c) (vc_pos c) false.

(** Frames left to read. *)
Definition remaining (c : VideoCapture) : nat :=
  if vc_opened c then (length (vc_frames c) - vc_pos c)%nat else 0%nat.

(** ** The process state and the monad of the program *)

(** The rclpy context. *)
Inductive Context := CtxUninitialized | CtxOk | CtxShutdown.

#[global] Instance Context_eq_dec : EqDecision Context.
Proof. solve_decision. Defined.

Record World := mkWorld {
  ctx : Context;
  clock_reads : nat;
  out : list Event
}.

Inductive Outcome (A : Type) :=
| Return (a : A)
| Raise (e : Exception).
Arguments Return {A} a.
Arguments Raise {A} e.

Definition Run (A : Type) : Type := World -> Outcome A * World.

Definition ret {A} (a : A) : Run A := fun w => (Return a, w).

Definition bind {A B} (m : Run A) (k : A -> Run B) : Run B :=
  fun w =>
    match m w with
    | (Return a, w') => k a w'
    | (Raise e, w') => (Raise e, w')
    end.

Definition raise {A} (e : Exception) : Run A := fun w => (Raise e, w).

(** A call that leaves the state alone: it returns or raises. *)
Definition of_outcome {A} (o : Outcome A) : Run A := fun w => (o, w).

Declare Scope run_scope.
Delimit Scope run_scope with run.
Notation "x <- m ;; k" := (bind m (fun x => k))
  (at level 100, m at next level, right associativity) : run_scope.
Notation "m ;; k" := (bind m (fun _ => k))
  (at level 100, right associativity) : run_scope.

Definition emit (e : Event) : Run unit :=
  fun w => (Return tt, mkWorld (ctx w) (clock_reads w) (out w ++ [e])).

Definition set_ctx (c : Context) : Run unit :=
  fun w => (Return tt, mkWorld c (clock_reads w) (out w)).

Definition get_ctx : Run Context := fun w => (Return (ctx w), w).

Definition info (l : LogLine) : Run unit := emit (EvLog l).

(** [rclpy.init()] and [rclpy.shutdown()].  A call of [rclpy.shutdown()] is
    recorded and leaves the context shut down.  rclpy answers a call on a
    context that is not ok with an error; the model does not have that
    error: there the call is recorded like any other and returns. *)
Definition rclpy_init : Run unit :=
  (emit EvRclpyInit ;; set_ctx CtxOk)%run.

Definition rclpy_shutdown : Run unit :=
  (emit EvRclpyShutdown ;; set_ctx CtxShutdown)%run.

(** [try: body finally: fin]: [fin] runs whatever the outcome of [body]; an
    exception of [body] is raised again after it. *)
Definition try_finally {A} (body : Run A) (fin : Run unit) : Run A :=
  fun w =>
    match body w with
    | (Return a, w') =>
        match fin w' with
        | (Return _, w'') => (Return a, w'')
        | (Raise e, w'') => (Raise e, w'')
        end
    | (Raise e, w') =>
        match fin w' with
        | (Return _, w'') => (Raise e, w'')
        | (Raise e', w'') => (Raise e', w'')
        end
    end.

(** [try: body except Exception: pass]. *)
Definition try_pass (body : Run unit) : Run unit :=
  fun w => (Return tt, snd (body w)).

(** ** Parameters

    The parameter overrides given on the command line are a dictionary from
    names to values; [declare_parameter] enters the override, or the default
    when there is none, into the node's parameters. *)
Inductive ParamValue :=
| PString (s : string)
| PDouble (f : float)
| PInteger (z : Z).

Definition string_value (v : ParamValue) : string :=
  match v with PString s => s | _ => "" end.

Definition double_value (v : ParamValue) : float :=
  match v with PDouble f => f | _ => 0%float end.

Definition integer_value (v : ParamValue) : Z :=
  match v with PInteger z => z | _ => 0 end.

Definition declare_parameter (overrides : gmap string ParamValue)
    (name : string) (dflt : ParamValue)
    (params : gmap string ParamValue) : gmap string ParamValue :=
  match overrides !! name with
  | Some v => <[name := v]> params
  | None => <[name := dflt]> params
  end.

Definition get_parameter (params : gmap string ParamValue) (name : string)
    : Run ParamValue :=
  match params !! name with
  | Some v => ret v
  | None => raise (ParameterNotDeclaredException name)
  end.

(** [CvBridge.cv2_to_imgmsg(frame, encoding)]; [None] is not an array. *)
Definition cv2_to_imgmsg (f : option Frame) (enc : string) : Run Image :=
  match f with
  | Some f => ret (imgmsg_of_frame f enc)
  | None => raise (TypeError "Your input type is not a numpy array")
  end.

(** ** Arithmetic of the timer period

    [rate_hz] is a Python float, an IEEE 754 binary64 number.  The period is
    computed with three operations of it: the comparison [>] inside [max],
    the test of the divisor against zero inside [/], and the division
    itself. *)

(** The binary64 number that the literal [0.1] denotes. *)
Definition tenth : float := 0x1.999999999999ap-4%float.

(** Python's [max(a, b)]: [b] when [b > a], otherwise [a]. *)
Definition py_max (a b : float) : float :=
  if (a <? b)%float then b else a.

(** Python's [a / b] on floats: a zero divisor raises. *)
Definition truediv (a b : float) : Run float :=
  if (b =? 0)%float then raise ZeroDivisionError else ret (a / b)%float.

(** [1.0 / max(rate_hz, 0.1)]. *)
Definition timer_period (rate_hz : float) : Run float :=
  truediv 1 (py_max rate_hz tenth).

(** Python's truth value of a string. *)
Definition truthy (s : string) : bool :=
  match s with EmptyString => false | String _ _ => true end.

(** ** The node *)

Record Node := mkNode {
  rate_hz : float;
  start_frame : Z;
  left_path : string;
  right_path : string;
  capL : VideoCapture;
  capR : VideoCapture;
  dt : float;
  frame_idx : Z
}.

Definition with_caps (self : Node) (cl cr : VideoCapture) : Node :=
  mkNode (rate_hz self) (start_frame self) (left_path self) (right_path self)
         cl cr (dt self) (frame_idx self).

Definition with_frame_idx (self : Node) (i : Z) : Node :=
  mkNode (rate_hz self) (start_frame self) (left_path self) (right_path self)
         (capL self) (capR self) (dt self) i.

Section Program.

(** The outside world: what [str(Path(p).expanduser())] makes of a path
    (it raises when the path begins with a [~user] whose home directory
    cannot be determined), the frames each path decodes to ([None] when cv2
    cannot open it), where a capture stands after a seek beyond 2^53, and
    the successive readings of the node's clock. *)
Variable expanduser : string -> Outcome string.
Variable videos : string -> option (list Frame).
Variable far_seek : Z -> list Frame -> nat.
Variable clock : nat -> Time.

(** [cv2.VideoCapture(path)]. *)
Definition VideoCapture_new (s : Side) (path : string) : Run VideoCapture :=
  let c := match videos path with
           | Some fs => mkCap fs 0 true
           | None => mkCap [] 0 false
           end in
  (emit (EvOpen s path (isOpened c)) ;; ret c)%run.

(** [self.get_clock().now().to_msg()]. *)
Definition now : Run Time :=
  fun w => (Return (clock (clock_reads w)),
            mkWorld (ctx w) (S (clock_reads w)) (out w)).

(** [StereoVideoPublisher.__init__], lines 24 to 32: the four parameters
    are declared with their defaults and read back. *)
Definition read_parameters (overrides : gmap string ParamValue)
    : Run (string * string * float * Z) :=
  (let params := declare_parameter overrides "left_video" (PString "") ∅ in
   let params := declare_parameter overrides "right_video" (PString "") params in
   let params := declare_parameter overrides "rate_hz" (PDouble 10) params in
   let params := declare_parameter overrides "start_frame" (PInteger 0) params in
   pl <- get_parameter params "left_video" ;;
   pr <- get_parameter params "right_video" ;;
   prate <- get_parameter params "rate_hz" ;;
   pstart <- get_parameter params "start_frame" ;;
   ret (string_value pl, string_value pr, double_value prate,
        integer_value pstart))%run.

(** [StereoVideoPublisher.__init__], lines 34 to 64: the check of the
    paths, their expansion, the publishers, the two captures, the seek, the
    timer and the banner. *)
Definition setup (left_path right_path : string) (rate_hz : float)
    (start_frame : Z) : Run Node :=
  (if negb (truthy left_path) || negb (truthy right_path) then
     raise (RuntimeError "You must pass left_video and right_video parameters.")
   else
     left_path <- of_outcome (expanduser left_path) ;;
     right_path <- of_outcome (expanduser right_path) ;;
     emit (EvCreatePublisher SideL 10) ;;
     emit (EvCreatePublisher SideR 10) ;;
     capL <- VideoCapture_new SideL left_path ;;
     capR <- VideoCapture_new SideR right_path ;;
     if negb (isOpened capL) then
       raise (RuntimeError ("Cannot open left video: " +:+ left_path))
     else if negb (isOpened capR) then
       raise (RuntimeError ("Cannot open right video: " +:+ right_path))
     else
       caps <- (if 0 <? start_frame then
                  emit (EvSeek SideL start_frame) ;;
                  emit (EvSeek SideR start_frame) ;;
                  ret (set_pos_frames far_seek capL start_frame,
                       set_pos_frames far_seek capR start_frame)
                else ret (capL, capR)) ;;
       dt <- timer_period rate_hz ;;
       emit (EvCreateTimer dt) ;;
       info LogStarted ;;
       info (LogLeft left_path) ;;
       info (LogRight right_path) ;;
       info (LogPublishing rate_hz start_frame) ;;
       ret (mkNode rate_hz start_frame left_path right_path
                   (fst caps) (snd caps) dt start_frame))%run.

(** [StereoVideoPublisher.__init__]. *)
Definition StereoVideoPublisher_init (overrides : gmap string ParamValue)
    : Run Node :=
  (cfg <- read_parameters overrides ;;
   setup cfg.1.1.1 cfg.1.1.2 cfg.1.2 cfg.2)%run.

(** [StereoVideoPublisher.tick], the timer callback. *)
Definition tick (self : Node) : Run Node :=
  (let '(okL, frameL, cl) := read (capL self) in
   emit (EvRead SideL okL) ;;
   let '(okR, frameR, cr) := read (capR self) in
   emit (EvRead SideR okR) ;;
   let self := with_caps self cl cr in
   if negb okL || negb okR then
     info LogEndOfVideo ;;
     rclpy_shutdown ;;
     ret self
   else
     msgL <- cv2_to_imgmsg frameL "bgr8" ;;
     msgR <- cv2_to_imgmsg frameR "bgr8" ;;
     t <- now ;;
     let msgL := set_stamp msgL t in
     let msgR := set_stamp msgR t in
     let msgL := set_frame_id msgL "left_camera" in
     let msgR := set_frame_id msgR "right_camera" in
     emit (EvPublish SideL msgL) ;;
     emit (EvPublish SideR msgR) ;;
     (if (frame_idx self mod 30 =? 0) then
        info (LogPublished (frame_idx self))
      else ret tt) ;;
     ret (with_frame_idx self (frame_idx self + 1)))%run.

(** [rclpy.spin(node)]: the executor runs the timer callback once per
    period for as long as the context is ok.  [fuel] is the number of
    periods before the operator interrupts; [main] passes over the
    interrupt, so the loop just ends there. *)
Fixpoint spin (fuel : nat) (node : Node) : Run Node :=
  match fuel with
  | O => ret node
  | S fuel' =>
      (c <- get_ctx ;;
       match c with
       | CtxOk => node' <- tick node ;; spin fuel' node'
       | _ => ret node
       end)%run
  end.

(** The first two lines of [main]: [rclpy.init()] and the constructor. *)
Definition startup (overrides : gmap string ParamValue) : Run Node :=
  (rclpy_init ;; StereoVideoPublisher_init overrides)%run.

(** [main]. *)
Definition main (overrides : gmap string ParamValue) (fuel : nat)
    : Run unit :=
  (node <- startup overrides ;;
   try_finally
     (spin fuel node ;; ret tt)
     (try_pass (emit (EvRelease SideL) ;; emit (EvRelease SideR)) ;;
      emit EvDestroyNode ;;
      rclpy_shutdown))%run.

End Program.

(** ** Observations on a run *)

(** The events appended to the trace between two worlds. *)
Definition emitted (w w' : World) : list Event :=
  drop (length (out w)) (out w').

(** The publish calls among some events, in order. *)
Definition published (evs : list Event) : list (Side * Image) :=
  omap (fun e => match e with EvPublish s m => Some (s, m) | _ => None end) evs.

(** The reads among some events, in order. *)
Definition reads (evs : list Event) : list (Side * bool) :=
  omap (fun e => match e with EvRead s ok => Some (s, ok) | _ => None end) evs.

Definition is_shutdown (e : Event) : bool :=
  match e with EvRclpyShutdown => true | _ => false end.

(** The number of [rclpy.shutdown()] calls among some events. *)
Definition shutdowns (evs : list Event) : nat :=
  length (List.filter is_shutdown evs).

Definition is_create_timer (e : Event) : bool :=
  match e with EvCreateTimer _ => true | _ => false end.

(** The scheduler's state as the design names it: [RUNNING] once the timer
    exists and while the rclpy context is ok, [STOPPED] once the context is
    shut down. *)
Inductive SchedState := INIT | RUNNING | STOPPED.

Definition sched_state (w : World) : SchedState :=
  match ctx w with
  | CtxShutdown => STOPPED
  | CtxOk => if existsb is_create_timer (out w) then RUNNING else INIT
  | CtxUninitialized => INIT
  end.

(** Whether both reads of the next tick succeed. *)
Definition reads_ok (self : Node) : bool :=
  (read (capL self)).1.1 && (read (capR self)).1.1.

(** Whether the handle of a side is open at the end of a trace: opened by
    the last [VideoCapture] call for it and not released since. *)
Definition side_eqb (a b : Side) : bool :=
  match a, b with SideL, SideL | SideR, SideR => true | _, _ => false end.

Fixpoint open_after (s : Side) (st : bool) (tr : list Event) : bool :=
  match tr with
  | [] => st
  | EvOpen s' _ ok :: tr' => open_after s (if side_eqb s s' then ok else st) tr'
  | EvRelease s' :: tr' => open_after s (if side_eqb s s' then false else st) tr'
  | _ :: tr' => open_after s st tr'
  end.

Definition handle_open (s : Side) (tr : list Event) : bool :=
  open_after s false tr.

(** The message a tick publishes for a frame: the bridge's message, stamped
    and labelled. *)
Definition stamped (f : Frame) (t : Time) (label : string) : Image :=
  set_frame_id (set_stamp (imgmsg_of_frame f "bgr8") t) label.

(** The progress line of a tick, one in thirty. *)
Definition progress_log (i : Z) : list Event :=
  if i mod 30 =? 0 then [EvLog (LogPublished i)] else [].

(** The pair a tick publishes, with the value [frame_idx] has while it is
    published: the node's sequence index for that pair. *)
Definition published_pair (clock : nat -> Time) (self : Node) (w : World)
    : option (Z * Image * Image) :=
  match published (emitted w (tick clock self w).2) with
  | [(SideL, mL); (SideR, mR)] => Some (frame_idx self, mL, mR)
  | _ => None
  end.

(** The pairs published over a run of the spin loop, in order. *)
Fixpoint published_pairs (clock : nat -> Time) (fuel : nat) (node : Node)
    (w : World) : list (Z * Image * Image) :=
  match fuel with
  | O => []
  | S fuel' =>
      match ctx w with
      | CtxOk =>
          match tick clock node w with
          | (Return node', w') =>
              option_list (published_pair clock node w)
                ++ published_pairs clock fuel' node' w'
          | (Raise _, _) => []
          end
      | _ => []
      end
  end.

Definition pair_events (p : Z * Image * Image) : list (Side * Image) :=
  [(SideL, p.1.2); (SideR, p.2)].

(** [n] invocations of the timer callback one after the other, whatever the
    state of the context (the executor of [spin] is not asked). *)
Fixpoint ticks (clock : nat -> Time) (n : nat) (self : Node) : Run Node :=
  match n with
  | O => ret self
  | S n' => (self' <- tick clock self ;; ticks clock n' self')%run
  end.

(** The node's configuration as [__init__] reads it from the overrides. *)
Definition param (overrides : gmap string ParamValue) (name : string)
    (dflt : ParamValue) : ParamValue :=
  from_option id dflt (overrides !! name).

Definition cfg_left_video (overrides : gmap string ParamValue) : string :=
  string_value (param overrides "left_video" (PString "")).

Definition cfg_right_video (overrides : gmap string ParamValue) : string :=
  string_value (param overrides "right_video" (PString "")).

Definition cfg_rate_hz (overrides : gmap string ParamValue) : float :=
  double_value (param overrides "rate_hz" (PDouble 10)).

Definition cfg_start_frame (overrides : gmap string ParamValue) : Z :=
  integer_value (param overrides "start_frame" (PInteger 0)).

(** A required path parameter that was not passed, or passed empty. *)
Definition missing_or_empty (overrides : gmap string ParamValue)
    (name : string) : Prop :=
  overrides !! name = None \/ overrides !! name = Some (PString "").

(** Whether [needle] occurs in [hay]. *)
Definition contains (needle hay : string) : bool :=
  match String.index 0 needle hay with Some _ => true | None => false end.

(** The indices of the progress lines ["Published frame <n>"] among some
    events, in order. *)
Definition progress_lines (evs : list Event) : list Z :=
  omap (fun e => match e with EvLog (LogPublished i) => Some i | _ => None end)
       evs.

(** The number of lines ["End of one of the videos. Stopping."] among some
    events. *)
Definition is_end_line (e : Event) : bool :=
  match e with EvLog LogEndOfVideo => true | _ => false end.

Definition end_lines (evs : list Event) : nat :=
  length (List.filter is_end_line evs).

(** The seeks among some events, in order. *)
Definition seeks (evs : list Event) : list (Side * Z) :=
  omap (fun e => match e with EvSeek s n => Some (s, n) | _ => None end) evs.

(** The messages published on the topic of one side, in order. *)
Definition on_topic (s : Side) (ms : list (Side * Image)) : list Image :=
  omap (fun sm => if side_eqb s sm.1 then Some sm.2 else None) ms.

(** The events of the timer callback: reads, publishes, log lines and the
    shutdown; everything else belongs to startup and to the way out. *)
Definition is_run_event (e : Event) : bool :=
  match e with
  | EvRead _ _ | EvPublish _ _ | EvLog _ | EvRclpyShutdown => true
  | _ => false
  end.

Definition is_release (e : Event) : bool :=
  match e with EvRelease _ => true | _ => false end.

(** The frames a file holds from a start frame on. *)
Definition frames_from (fs : list Frame) (start : Z) : nat :=
  (length fs - Z.to_nat start)%nat.

(** The frame at which a capture over [fs] stands once the constructor is
    through: sought to [start] when [start] is positive, at the first frame
    otherwise. *)
Definition seek_position (far_seek : Z -> list Frame -> nat)
    (fs : list Frame) (start : Z) : nat :=
  if 0 <? start then
    vc_pos (set_pos_frames far_seek (mkCap fs 0 true) start)
  else 0%nat.

(** ** A concrete setting: two files of five and ten frames *)

Module Scenario.

Definition frame (i : nat) : Frame :=
  mkFrame 1 1 [Z.of_nat i; Z.of_nat i; Z.of_nat i].

Definition frames (n : nat) : list Frame := map frame (seq 0 n).

(** Paths are left as they are; the home directory of [~nobody] is not
    known. *)
Definition expanduser (p : string) : Outcome string :=
  if String.prefix "~nobody" p
  then Raise (RuntimeError "Could not determine home directory.")
  else Return p.

Definition videos (p : string) : option (list Frame) :=
  if String.eqb p "left.mp4" then Some (frames 5)
  else if String.eqb p "right.mp4" then Some (frames 10)
  else None.

(** A backend that leaves the capture at its first frame after a seek
    beyond 2^53. *)
Definition far_seek (n : Z) (fs : list Frame) : nat := 0%nat.

Definition clock (n : nat) : Time := mkTime (Z.of_nat n) 0.

Definition boot : World := mkWorld CtxUninitialized 0 [].

(** [left_video:=left.mp4 right_video:=right.mp4 start_frame:=3]. *)
Definition overrides : gmap string ParamValue :=
  <["left_video" := PString "left.mp4"]>
    (<["right_video" := PString "right.mp4"]>
       (<["start_frame" := PInteger 3]> ∅)).

(** The right path cannot be opened. *)
Definition overrides_bad_right : gmap string ParamValue :=
  <["left_video" := PString "left.mp4"]>
    (<["right_video" := PString "missing.mp4"]> ∅).

(** The left path cannot be opened. *)
Definition overrides_bad_left : gmap string ParamValue :=
  <["left_video" := PString "missing.mp4"]>
    (<["right_video" := PString "right.mp4"]> ∅).

(** [start_frame:=-2]. *)
Definition overrides_negative : gmap string ParamValue :=
  <["left_video" := PString "left.mp4"]>
    (<["right_video" := PString "right.mp4"]>
       (<["start_frame" := PInteger (-2)]> ∅)).

(** Only the two paths are passed. *)
Definition overrides_paths_only : gmap string ParamValue :=
  <["left_video" := PString "left.mp4"]>
    (<["right_video" := PString "right.mp4"]> ∅).

(** Neither path can be opened. *)
Definition overrides_bad_both : gmap string ParamValue :=
  <["left_video" := PString "missing.mp4"]>
    (<["right_video" := PString "gone.mp4"]> ∅).

(** No [right_video] is passed. *)
Definition overrides_no_right : gmap string ParamValue :=
  <["left_video" := PString "left.mp4"]> ∅.

(** No [left_video] is passed. *)
Definition overrides_no_left : gmap string ParamValue :=
  <["right_video" := PString "right.mp4"]> ∅.

(** The right path begins with a user whose home directory is not known. *)
Definition overrides_unknown_home_right : gmap string ParamValue :=
  <["left_video" := PString "left.mp4"]>
    (<["right_video" := PString "~nobody/right.mp4"]> ∅).

(** The node and the world once [rclpy.init()] and the constructor have
    run. *)
Definition started : Outcome Node * World :=
  startup expanduser videos far_seek overrides boot.

(** A node in its running state: two frames left on the left, five on the
    right. *)
Definition node3 : Node :=
  mkNode 10 3 "left.mp4" "right.mp4"
         (mkCap (frames 5) 3 true) (mkCap (frames 10) 3 true) (1 / 10) 3.

(** The same node once the left file is read to its end. *)
Definition node5 : Node :=
  mkNode 10 3 "left.mp4" "right.mp4"
         (mkCap (frames 5) 5 true) (mkCap (frames 10) 5 true) (1 / 10) 5.

Definition running : World :=
  mkWorld CtxOk 0 [EvRclpyInit; EvCreateTimer (1 / 10)].

End Scenario.

(** * Properties *)

(** ** The trace only grows *)

Lemma emitted_app (w w' : World) (evs : list Event) :
  out w' = out w ++ evs -> emitted w w' = evs.
Proof.
  intros H. unfold emitted. rewrite H. apply drop_app_length.
Qed.

Lemma emitted_refl (w : World) : emitted w w = [].
Proof. apply emitted_app. symmetry. apply app_nil_r. Qed.

Lemma published_app (a b : list Event) :
  published (a ++ b) = published a ++ published b.
Proof. unfold published. apply omap_app. Qed.

(** ** Reading a capture *)

Lemma release_twice (c : VideoCapture) : release (release c) = release c.
Proof. reflexivity. Qed.

Lemma read_released (c : VideoCapture) :
  read (release c) = (false, None, release c).
Proof. reflexivity. Qed.

Lemma read_true (c : VideoCapture) :
  (read c).1.1 = true ->
  exists f, vc_frames c !! vc_pos c = Some f /\
            read c = (true, Some f, mkCap (vc_frames c) (S (vc_pos c)) true).
Proof.
  unfold read. destruct (vc_opened c); [|discriminate].
  destruct (vc_frames c !! vc_pos c) as [f|] eqn:E; [|discriminate].
  intros _. exists f. split; reflexivity.
Qed.

Lemma read_false (c : VideoCapture) :
  (read c).1.1 = false -> read c = (false, None, c).
Proof.
  unfold read. destruct (vc_opened c); [|reflexivity].
  destruct (vc_frames c !! vc_pos c); [discriminate|reflexivity].
Qed.

Lemma read_true_remaining (c : VideoCapture) :
  (read c).1.1 = true <-> (0 < remaining c)%nat.
Proof.
  unfold read, remaining. destruct (vc_opened c); simpl.
  - destruct (vc_frames c !! vc_pos c) as [f|] eqn:E; simpl.
    + apply lookup_lt_Some in E. split; [lia|reflexivity].
    + apply lookup_ge_None in E. split; [discriminate|lia].
  - split; [discriminate|lia].
Qed.

Lemma read_false_remaining (c : VideoCapture) :
  (read c).1.1 = false <-> remaining c = 0%nat.
Proof.
  pose proof (read_true_remaining c) as H.
  destruct ((read c).1.1); split; intros; try reflexivity; try discriminate.
  - assert (0 < remaining c)%nat by (apply H; reflexivity). lia.
  - destruct (remaining c); [reflexivity|].
    assert (false = true) by (apply H; lia). discriminate.
Qed.

(** An exhausted capture stays exhausted. *)
Lemma read_exhausted_stays (c : VideoCapture) :
  (read c).1.1 = false -> (read (read c).2).1.1 = false.
Proof. intros H. rewrite (read_false c H). exact H. Qed.

(** ** One tick *)

Section Tick.

Variable clock : nat -> Time.

(** A tick whose two reads succeed: both messages go out, the index moves
    on by one. *)
Lemma tick_publish (self : Node) (w : World) :
  reads_ok self = true ->
  exists fL fR,
    vc_frames (capL self) !! vc_pos (capL self) = Some fL /\
    vc_frames (capR self) !! vc_pos (capR self) = Some fR /\
    tick clock self w =
      (Return (with_frame_idx
                 (with_caps self (read (capL self)).2 (read (capR self)).2)
                 (frame_idx self + 1)),
       mkWorld (ctx w) (S (clock_reads w))
         (out w ++ [EvRead SideL true; EvRead SideR true;
                    EvPublish SideL
                      (stamped fL (clock (clock_reads w)) "left_camera");
                    EvPublish SideR
                      (stamped fR (clock (clock_reads w)) "right_camera")]
                ++ progress_log (frame_idx self))).
Proof.
  unfold reads_ok. intros H. apply andb_true_iff in H as [HL HR].
  destruct (read_true _ HL) as (fL & EL & RL).
  destruct (read_true _ HR) as (fR & ER & RR).
  exists fL, fR. split; [exact EL|]. split; [exact ER|].
  unfold tick. rewrite RL, RR. cbn.
  unfold progress_log, stamped.
  destruct (frame_idx self mod 30 =? 0); cbn;
    repeat rewrite <- app_assoc; reflexivity.
Qed.

(** A tick in which a read fails: nothing goes out, the context is shut
    down, the index stays. *)
Lemma tick_stop (self : Node) (w : World) :
  reads_ok self = false ->
  tick clock self w =
    (Return (with_caps self (read (capL self)).2 (read (capR self)).2),
     mkWorld CtxShutdown (clock_reads w)
       (out w ++ [EvRead SideL (read (capL self)).1.1;
                  EvRead SideR (read (capR self)).1.1;
                  EvLog LogEndOfVideo; EvRclpyShutdown])).
Proof.
  unfold reads_ok, tick. intros H.
  destruct (read (capL self)) as [[okL frameL] cl].
  destruct (read (capR self)) as [[okR frameR] cr].
  cbn in H |- *.
  assert (negb okL || negb okR = true) as ->
    by (destruct okL, okR; try reflexivity; discriminate).
  cbn. repeat rewrite <- app_assoc. reflexivity.
Qed.

End Tick.

Lemma published_progress_log (i : Z) : published (progress_log i) = [].
Proof. unfold progress_log. destruct (i mod 30 =? 0); reflexivity. Qed.

Lemma reads_ok_false (self : Node) :
  reads_ok self = false <->
  (read (capL self)).1.1 = false \/ (read (capR self)).1.1 = false.
Proof. unfold reads_ok. apply andb_false_iff. Qed.

Lemma reads_ok_remaining (node : Node) :
  reads_ok node = true <->
  (0 < Nat.min (remaining (capL node)) (remaining (capR node)))%nat.
Proof.
  unfold reads_ok. rewrite andb_true_iff, !read_true_remaining. lia.
Qed.

Lemma frame_id_labels_differ : "left_camera" <> "right_camera".
Proof. discriminate. Qed.

Section TickClaims.

Variable clock : nat -> Time.

(** What a tick appends to the trace. *)
Lemma tick_emitted_publish (self : Node) (w : World) :
  reads_ok self = true ->
  exists fL fR,
    emitted w (tick clock self w).2 =
      [EvRead SideL true; EvRead SideR true;
       EvPublish SideL (stamped fL (clock (clock_reads w)) "left_camera");
       EvPublish SideR (stamped fR (clock (clock_reads w)) "right_camera")]
      ++ progress_log (frame_idx self).
Proof.
  intros H. destruct (tick_publish clock self w H) as (fL & fR & _ & _ & E).
  exists fL, fR. rewrite E. apply emitted_app. reflexivity.
Qed.

Lemma tick_emitted_stop (self : Node) (w : World) :
  reads_ok self = false ->
  emitted w (tick clock self w).2 =
    [EvRead SideL (read (capL self)).1.1; EvRead SideR (read (capR self)).1.1;
     EvLog LogEndOfVideo; EvRclpyShutdown].
Proof.
  intros H. rewrite (tick_stop clock self w H). apply emitted_app. reflexivity.
Qed.

(** The callback never raises. *)
Lemma tick_returns (self : Node) (w : World) :
  exists self', (tick clock self w).1 = Return self'.
Proof.
  destruct (reads_ok self) eqn:H.
  - destruct (tick_publish clock self w H) as (fL & fR & _ & _ & E).
    rewrite E. eexists. reflexivity.
  - rewrite (tick_stop clock self w H). eexists. reflexivity.
Qed.

(** Once shut down, the context stays shut down through any tick. *)
Lemma tick_keeps_shutdown (self : Node) (w : World) :
  ctx w = CtxShutdown -> ctx (tick clock self w).2 = CtxShutdown.
Proof.
  intros Hc. destruct (reads_ok self) eqn:H.
  - destruct (tick_publish clock self w H) as (fL & fR & _ & _ & E).
    rewrite E. exact Hc.
  - rewrite (tick_stop clock self w H). reflexivity.
Qed.

Lemma tick_pair_facts (self : Node) (w : World) :
  reads_ok self = true ->
  exists mL mR self',
    (tick clock self w).1 = Return self' /\
    published (emitted w (tick clock self w).2) = [(SideL, mL); (SideR, mR)] /\
    published_pair clock self w = Some (frame_idx self, mL, mR) /\
    frame_idx self' = frame_idx self + 1.
Proof.
  intros H.
  destruct (tick_emitted_publish self w H) as (fL & fR & E).
  destruct (tick_publish clock self w H) as (fL' & fR' & _ & _ & T).
  exists (stamped fL (clock (clock_reads w)) "left_camera"),
         (stamped fR (clock (clock_reads w)) "right_camera").
  eexists. split; [rewrite T; reflexivity|].
  assert (P : published (emitted w (tick clock self w).2) =
              [(SideL, stamped fL (clock (clock_reads w)) "left_camera");
               (SideR, stamped fR (clock (clock_reads w)) "right_camera")]).
  { rewrite E, published_app, published_progress_log. reflexivity. }
  split; [exact P|].
  split; [unfold published_pair; rewrite P; reflexivity|reflexivity].
Qed.

Lemma tick_stop_facts (self : Node) (w : World) :
  reads_ok self = false ->
  published (emitted w (tick clock self w).2) = [] /\
  published_pair clock self w = None /\
  ctx (tick clock self w).2 = CtxShutdown.
Proof.
  intros H.
  pose proof (tick_emitted_stop self w H) as E.
  assert (P : published (emitted w (tick clock self w).2) = [])
    by (rewrite E; reflexivity).
  split; [exact P|].
  split; [unfold published_pair; rewrite P; reflexivity|].
  rewrite (tick_stop clock self w H). reflexivity.
Qed.

(** C1: in a tick whose two reads both succeed, exactly one message goes
    out on the left and one on the right; the two carry the same timestamp
    (the single clock reading of the tick) and the labels "left_camera" and
    "right_camera", which differ; and both are published under one sequence
    index, the value of [frame_idx] on entry, which the tick changes only
    after the two publish calls. *)
Theorem tick_pair_same_stamp_same_index (self : Node) (w : World) :
  reads_ok self = true ->
  exists mL mR self',
    (tick clock self w).1 = Return self' /\
    published (emitted w (tick clock self w).2) = [(SideL, mL); (SideR, mR)] /\
    published_pair clock self w = Some (frame_idx self, mL, mR) /\
    stamp (header mL) = clock (clock_reads w) /\
    stamp (header mR) = stamp (header mL) /\
    frame_id (header mL) = "left_camera" /\
    frame_id (header mR) = "right_camera" /\
    frame_id (header mL) <> frame_id (header mR) /\
    frame_idx self' = frame_idx self + 1.
Proof.
  intros H.
  destruct (tick_publish clock self w H) as (fL & fR & _ & _ & T).
  set (mL := stamped fL (clock (clock_reads w)) "left_camera").
  set (mR := stamped fR (clock (clock_reads w)) "right_camera").
  exists mL, mR. eexists.
  split; [rewrite T; reflexivity|].
  assert (P : published (emitted w (tick clock self w).2) =
              [(SideL, mL); (SideR, mR)]).
  { rewrite T. cbn [snd]. erewrite emitted_app by reflexivity.
    rewrite published_app, published_progress_log. reflexivity. }
  split; [exact P|].
  split; [unfold published_pair; rewrite P; reflexivity|].
  split; [reflexivity|]. split; [reflexivity|].
  split; [reflexivity|]. split; [reflexivity|].
  split; [apply frame_id_labels_differ|reflexivity].
Qed.

(** C2: in a tick in which the read of either source returns end of stream,
    no message is published on either channel, and the scheduler goes to
    STOPPED, where every later tick leaves it. *)
Theorem tick_end_of_stream_stops_without_publishing (self : Node) (w : World) :
  (read (capL self)).1.1 = false \/ (read (capR self)).1.1 = false ->
  published (emitted w (tick clock self w).2) = [] /\
  published_pair clock self w = None /\
  sched_state (tick clock self w).2 = STOPPED /\
  (forall later : Node,
      sched_state (tick clock later (tick clock self w).2).2 = STOPPED).
Proof.
  intros H. apply reads_ok_false in H.
  destruct (tick_stop_facts self w H) as (P & PP & C).
  split; [exact P|]. split; [exact PP|].
  split; [unfold sched_state; rewrite C; reflexivity|].
  intros later. unfold sched_state.
  rewrite (tick_keeps_shutdown later _ C). reflexivity.
Qed.

(** C10: every tick reads the left source and then the right one before
    anything else, whatever the first read returned; so in the tick that
    ends the run the source that still has frames loses one (its position
    moves on by one) and that frame is not published. *)
Theorem tick_reads_both_sources (self : Node) (w : World) :
  (exists rest,
      emitted w (tick clock self w).2 =
        EvRead SideL (read (capL self)).1.1
          :: EvRead SideR (read (capR self)).1.1 :: rest) /\
  (exists self',
      (tick clock self w).1 = Return self' /\
      capL self' = (read (capL self)).2 /\
      capR self' = (read (capR self)).2 /\
      (if (read (capL self)).1.1
       then vc_pos (capL self') = S (vc_pos (capL self))
       else capL self' = capL self) /\
      (if (read (capR self)).1.1
       then vc_pos (capR self') = S (vc_pos (capR self))
       else capR self' = capR self)) /\
  (if reads_ok self then True
   else published (emitted w (tick clock self w).2) = []).
Proof.
  assert (Pos : forall c,
             if (read c).1.1 then vc_pos (read c).2 = S (vc_pos c)
             else (read c).2 = c).
  { intros c. destruct ((read c).1.1) eqn:R.
    - destruct (read_true c R) as (f & _ & ->). reflexivity.
    - rewrite (read_false c R). reflexivity. }
  destruct (reads_ok self) eqn:H.
  - destruct (tick_emitted_publish self w H) as (fL & fR & E).
    destruct (tick_publish clock self w H) as (fL' & fR' & _ & _ & T).
    unfold reads_ok in H. apply andb_true_iff in H as [HL HR].
    split; [|split; [|exact I]].
    + rewrite E, HL, HR. eexists. reflexivity.
    + eexists. split; [rewrite T; reflexivity|]. cbn.
      split; [reflexivity|]. split; [reflexivity|].
      split; [apply (Pos (capL self))|apply (Pos (capR self))].
  - pose proof (tick_emitted_stop self w H) as E.
    split; [|split].
    + rewrite E. eexists. reflexivity.
    + eexists. split; [rewrite (tick_stop clock self w H); reflexivity|]. cbn.
      split; [reflexivity|]. split; [reflexivity|].
      split; [apply (Pos (capL self))|apply (Pos (capR self))].
    + rewrite E. reflexivity.
Qed.

End TickClaims.

(** ** The spin loop *)

Section Spin.

Variable clock : nat -> Time.

Lemma tick_out (self : Node) (w : World) :
  out (tick clock self w).2 = out w ++ emitted w (tick clock self w).2.
Proof.
  destruct (reads_ok self) eqn:H.
  - destruct (tick_publish clock self w H) as (fL & fR & _ & _ & T).
    rewrite T. cbn [snd].
    erewrite (emitted_app w _ _); reflexivity.
  - rewrite (tick_stop clock self w H). cbn [snd].
    erewrite (emitted_app w _ _); reflexivity.
Qed.

Lemma emitted_trans (w w' w'' : World) :
  out w' = out w ++ emitted w w' ->
  out w'' = out w' ++ emitted w' w'' ->
  out w'' = out w ++ emitted w w'' /\
  emitted w w'' = emitted w w' ++ emitted w' w''.
Proof.
  intros H1 H2.
  assert (E : out w'' = out w ++ emitted w w' ++ emitted w' w'')
    by (rewrite H2, H1 at 1; rewrite <- app_assoc; reflexivity).
  pose proof (emitted_app w w'' _ E) as E'.
  split; [rewrite E'; exact E|exact E'].
Qed.

(** The executor runs no callback once the context is not ok. *)
Lemma spin_not_ok (fuel : nat) (node : Node) (w : World) :
  ctx w <> CtxOk -> spin clock fuel node w = (Return node, w).
Proof.
  intros H. destruct fuel; [reflexivity|].
  cbn. unfold bind, get_ctx. destruct (ctx w); try reflexivity. congruence.
Qed.

Lemma spin_step (fuel : nat) (node : Node) (w : World) :
  ctx w = CtxOk ->
  spin clock (S fuel) node w =
    match tick clock node w with
    | (Return node', w') => spin clock fuel node' w'
    | (Raise e, w') => (Raise e, w')
    end.
Proof.
  intros H. cbn [spin]. unfold bind at 1, get_ctx. rewrite H.
  unfold bind. reflexivity.
Qed.

(** One more period of fuel is one more callback at the end, if the
    context is still ok there. *)
Lemma spin_snoc (fuel : nat) (node : Node) (w : World) :
  spin clock (S fuel) node w =
    match spin clock fuel node w with
    | (Return node', w') =>
        match ctx w' with
        | CtxOk => tick clock node' w'
        | _ => (Return node', w')
        end
    | (Raise e, w') => (Raise e, w')
    end.
Proof.
  revert node w. induction fuel as [|fuel IH]; intros node w.
  - destruct (ctx w) eqn:C.
    + rewrite spin_not_ok by congruence. cbn. rewrite C. reflexivity.
    + rewrite (spin_step 0 node w C). cbn [spin]. unfold ret. rewrite C.
      destruct (tick clock node w) as [[n'|e] w']; reflexivity.
    + rewrite spin_not_ok by congruence. cbn. rewrite C. reflexivity.
  - destruct (ctx w) eqn:C.
    + rewrite !spin_not_ok by congruence. rewrite C. reflexivity.
    + rewrite (spin_step (S fuel) node w C), (spin_step fuel node w C).
      destruct (tick clock node w) as [[n'|e] w']; [apply IH|reflexivity].
    + rewrite !spin_not_ok by congruence. rewrite C. reflexivity.
Qed.

Lemma published_pairs_not_ok (fuel : nat) (node : Node) (w : World) :
  ctx w <> CtxOk -> published_pairs clock fuel node w = [].
Proof.
  intros H. destruct fuel; [reflexivity|]. cbn.
  destruct (ctx w); try reflexivity. congruence.
Qed.

(** The loop returns, with the trace extended and the index moved on by
    the number of pairs published. *)
Lemma spin_returns (fuel : nat) (node : Node) (w : World) :
  exists node',
    (spin clock fuel node w).1 = Return node' /\
    out (spin clock fuel node w).2 = out w ++ emitted w (spin clock fuel node w).2 /\
    published (emitted w (spin clock fuel node w).2) =
      flat_map pair_events (published_pairs clock fuel node w) /\
    frame_idx node' =
      frame_idx node + Z.of_nat (length (published_pairs clock fuel node w)).
Proof.
  revert node w. induction fuel as [|fuel IH]; intros node w.
  - exists node. cbn. rewrite emitted_refl, app_nil_r.
    repeat split; try reflexivity. lia.
  - destruct (decide (ctx w = CtxOk)) as [C|C].
    2:{ rewrite spin_not_ok, published_pairs_not_ok by exact C.
        exists node. cbn. rewrite emitted_refl, app_nil_r.
        repeat split; try reflexivity. lia. }
    rewrite (spin_step fuel node w C). cbn [published_pairs]. rewrite C.
    pose proof (tick_out node w) as TO.
    destruct (reads_ok node) eqn:H.
    + destruct (tick_pair_facts clock node w H)
        as (mL & mR & self' & T & P & PP & FI).
      rewrite PP.
      destruct (tick clock node w) as [r w'] eqn:TT. cbn in T, P, TO.
      subst r.
      destruct (IH self' w') as (node' & R & O & PB & FJ).
      exists node'. split; [exact R|].
      destruct (emitted_trans w w' _ TO O) as [O' E'].
      split; [exact O'|]. split.
      * rewrite E', published_app, P, PB. reflexivity.
      * rewrite FJ, FI, length_app.
        replace (length (option_list (Some (frame_idx node, mL, mR))))
          with 1%nat by reflexivity.
        lia.
    + destruct (tick_stop_facts clock node w H) as (P & PP & S).
      rewrite PP.
      pose proof (tick_stop clock node w H) as T.
      destruct (tick clock node w) as [r w'] eqn:TT. cbn [fst snd] in P, TO, S.
      injection T as Er _. subst r.
      assert (C' : ctx w' <> CtxOk) by (rewrite S; discriminate).
      rewrite (spin_not_ok fuel _ w' C').
      rewrite (published_pairs_not_ok fuel _ w' C'). eexists. split; [reflexivity|]. cbn [fst snd].
      split; [exact TO|]. split; [rewrite P; reflexivity|].
      cbn. lia.
Qed.

End Spin.

(** ** The timer period *)

Lemma tenth_spec : Prim2SF tenth = S754_finite false 7205759403792794 (-56).
Proof. vm_compute. reflexivity. Qed.

Lemma one_spec : Prim2SF 1 = S754_finite false 4503599627370496 (-52).
Proof. vm_compute. reflexivity. Qed.

Lemma ten_spec : Prim2SF 10 = S754_finite false 5629499534213120 (-49).
Proof. vm_compute. reflexivity. Qed.

(** A number that is not below 0.1 is not zero (NaN included: it is not
    below anything and equal to nothing). *)
Lemma not_below_tenth_not_zero (f : float) :
  (f <? tenth)%float = false -> (f =? 0)%float = false.
Proof.
  rewrite FloatAxioms.ltb_spec, FloatAxioms.eqb_spec, tenth_spec.
  change (Prim2SF 0) with (S754_zero false).
  destruct (Prim2SF f) as [s|s| |s m e]; intros H.
  - destruct s; discriminate H.
  - destruct s; reflexivity.
  - reflexivity.
  - destruct s; reflexivity.
Qed.

(** Zero and the negative numbers are below 0.1. *)
Lemma not_positive_below_tenth (f : float) :
  (f <=? 0)%float = true -> (f <? tenth)%float = true.
Proof.
  rewrite FloatAxioms.ltb_spec, FloatAxioms.leb_spec, tenth_spec.
  change (Prim2SF 0) with (S754_zero false).
  destruct (Prim2SF f) as [s|s| |s m e]; intros H.
  - destruct s; reflexivity.
  - destruct s; [reflexivity|discriminate H].
  - discriminate H.
  - destruct s; [reflexivity|discriminate H].
Qed.

Lemma divisor_not_zero (rate : float) :
  (py_max rate tenth =? 0)%float = false.
Proof.
  unfold py_max. destruct (rate <? tenth)%float eqn:E.
  - vm_compute. reflexivity.
  - apply not_below_tenth_not_zero, E.
Qed.

Lemma timer_period_returns (rate : float) (w : World) :
  timer_period rate w = (Return (1 / py_max rate tenth)%float, w).
Proof.
  unfold timer_period, truediv. rewrite divisor_not_zero. reflexivity.
Qed.

Lemma timer_period_below_tenth (rate : float) (w : World) :
  (rate <? tenth)%float = true ->
  py_max rate tenth = tenth /\ timer_period rate w = (Return 10%float, w).
Proof.
  intros H. rewrite timer_period_returns.
  unfold py_max. rewrite H. split; reflexivity.
Qed.

(** *** The binary64 division

    The quotient the program computes is the binary64 one: the exact
    quotient rounded to the nearest number of 53 digits, ties to even.
    Rounding does not take the quotient of 1.0 by a number from 0.1 up
    above 10.0. *)

(** The number of binary digits of a positive number. *)
Lemma digits2_pos_size (p : positive) : digits2_pos p = Pos.size p.
Proof. induction p as [p IH|p IH|]; cbn; rewrite ?IH; reflexivity. Qed.

Lemma Zdigits2_log2 (p : positive) :
  Zdigits2 (Zpos p) = Z.succ (Z.log2 (Zpos p)).
Proof.
  cbn [Zdigits2]. rewrite digits2_pos_size.
  destruct p as [p|p|]; cbn [Pos.size Z.log2];
    rewrite ?Pos2Z.inj_succ; reflexivity.
Qed.

Lemma Zdigits2_bounds (q : Z) (d : Z) :
  0 <= d -> 2 ^ d <= q < 2 ^ (Z.succ d) -> Zdigits2 q = Z.succ d.
Proof.
  intros D B. assert (0 < 2 ^ d) by (apply Z.pow_pos_nonneg; lia).
  destruct q as [|p|p]; try lia.
  rewrite Zdigits2_log2. f_equal. apply Z.log2_unique; assumption.
Qed.

Lemma Zdigits2_le (q : Z) (d : Z) :
  0 <= d -> 0 < q < 2 ^ d -> Zdigits2 q <= d.
Proof.
  intros D B. destruct q as [|p|p]; try lia.
  rewrite Zdigits2_log2.
  assert (Z.log2 (Zpos p) < d); [|lia].
  apply Z.log2_lt_pow2; lia.
Qed.

(** ** Rounding a quotient to binary64 *)

Lemma shr_nonpos (mrs : shr_record) (e n : Z) :
  n <= 0 -> shr mrs e n = (mrs, e).
Proof. destruct n; intros H; try reflexivity; lia. Qed.

Lemma shr_m_of_loc (m : Z) (l : location) :
  shr_m (shr_record_of_loc m l) = m.
Proof. destruct l as [|[]]; reflexivity. Qed.

Lemma loc_of_shr_of_loc (m : Z) (l : location) :
  loc_of_shr_record (shr_record_of_loc m l) = l.
Proof. destruct l as [|[]]; reflexivity. Qed.

Lemma round_nearest_even_cases (m : Z) (l : location) :
  round_nearest_even m l = m \/ round_nearest_even m l = m + 1.
Proof.
  destruct l as [|[]]; cbn [round_nearest_even]; auto.
  destruct (Z.even m); auto.
Qed.

(** A mantissa of at most 53 digits is not shifted. *)
Lemma shr_fexp_fits (q e : Z) (l : location) :
  0 < q < 9007199254740992 -> -1074 <= e ->
  shr_fexp prec emax q e l = (shr_record_of_loc q l, e).
Proof.
  intros Q E. unfold shr_fexp. apply shr_nonpos.
  assert (D : Zdigits2 q <= 53) by (apply Zdigits2_le; [lia|exact Q]).
  unfold fexp, emin, prec, emax. lia.
Qed.

(** The mantissa 2^53 has 54 digits and is shifted once. *)
Lemma shr_fexp_full (e : Z) (l : location) :
  -1074 <= e ->
  shr_fexp prec emax 9007199254740992 e l =
    (shr_1 (shr_record_of_loc 9007199254740992 l), e + 1).
Proof.
  intros E. unfold shr_fexp.
  change (Zdigits2 9007199254740992) with 54.
  replace (fexp prec emax (54 + e) - e) with 1
    by (unfold fexp, emin, prec, emax; lia).
  reflexivity.
Qed.

(** What [binary_round_aux] makes of a positive mantissa of at most 54
    digits well inside the range of exponents: the mantissa as it is or one
    more, or 2^52 with the exponent one up. *)
Lemma binary_round_aux_pos (q e : Z) (l : location) :
  0 < q <= 9007199254740992 -> -1074 <= e -> e + 1 <= 971 ->
  exists m3 e3,
    binary_round_aux prec emax false q e l = S754_finite false m3 e3 /\
    ((e3 = e /\ (Zpos m3 = q \/ Zpos m3 = q + 1) /\
      Zpos m3 < 9007199254740992) \/
     (e3 = e + 1 /\ m3 = 4503599627370496%positive /\
      9007199254740991 <= q)).
Proof.
  intros Q E U. unfold binary_round_aux.
  assert (F : forall m2 : Z,
             0 < m2 <= 9007199254740992 -> (m2 = q \/ m2 = q + 1) ->
             exists m3 e3,
               (let '(mrs'', e'') := shr_fexp prec emax m2 e loc_Exact in
                match shr_m mrs'' with
                | 0 => S754_zero false
                | Z.pos m =>
                    if e'' <=? emax - prec
                    then S754_finite false m e'' else S754_infinity false
                | Z.neg _ => S754_nan
                end) = S754_finite false m3 e3 /\
               ((e3 = e /\ (Zpos m3 = q \/ Zpos m3 = q + 1) /\
                 Zpos m3 < 9007199254740992) \/
                (e3 = e + 1 /\ m3 = 4503599627370496%positive /\
      9007199254740991 <= q))).
  { intros m2 M C.
    destruct (Z.eq_dec m2 9007199254740992) as [->|N].
    - rewrite shr_fexp_full by exact E. cbn [shr_record_of_loc shr_1 shr_m].
      replace (e + 1 <=? emax - prec) with true
        by (symmetry; apply Z.leb_le; unfold emax, prec; lia).
      eexists _, _. split; [reflexivity|]. right. split; [reflexivity|]. split; [reflexivity|lia].
    - rewrite shr_fexp_fits by lia. cbn [shr_record_of_loc shr_m].
      destruct m2 as [|p|p]; try lia.
      replace (e <=? emax - prec) with true
        by (symmetry; apply Z.leb_le; unfold emax, prec; lia).
      eexists _, _. split; [reflexivity|]. left.
      split; [reflexivity|]. split; [exact C|lia]. }
  destruct (Z.eq_dec q 9007199254740992) as [->|N].
  - rewrite shr_fexp_full by exact E.
    assert (R : round_nearest_even
                  (shr_m (shr_1 (shr_record_of_loc 9007199254740992 l)))
                  (loc_of_shr_record
                     (shr_1 (shr_record_of_loc 9007199254740992 l))) =
                4503599627370496)
      by (destruct l as [|[]]; reflexivity).
    rewrite R. rewrite shr_fexp_fits by lia. cbn [shr_record_of_loc shr_m].
    replace (e + 1 <=? emax - prec) with true
      by (symmetry; apply Z.leb_le; unfold emax, prec; lia).
    eexists _, _. split; [reflexivity|]. right. split; [reflexivity|]. split; [reflexivity|lia].
  - rewrite shr_fexp_fits by lia.
    rewrite shr_m_of_loc, loc_of_shr_of_loc.
    destruct (round_nearest_even_cases q l) as [-> | ->].
    + apply F; [lia|left; reflexivity].
    + apply F; [lia|right; reflexivity].
Qed.

(** ** The quotient of 1 by a binary64 number from 0.1 up *)

Lemma div_core_of_one (m : positive) (e : Z) :
  4503599627370496 <= Zpos m < 9007199254740992 ->
  -56 <= e <= 971 ->
  exists q e' l,
    SFdiv_core_binary prec emax 4503599627370496 (-52) (Zpos m) e
      = (q, e', l) /\
    0 < q <= 9007199254740992 /\
    -1074 <= e' <= -49 /\
    (e' = -49 ->
     e = -56 /\ Zpos m * q <= 40564819207303340847894502572032).
Proof.
  intros M E. unfold SFdiv_core_binary.
  change (Zdigits2 4503599627370496) with 53.
  replace (Zdigits2 (Zpos m)) with 53
    by (symmetry; apply (Zdigits2_bounds (Zpos m) 52); [lia|exact M]).
  cbv zeta.
  destruct (Z_le_gt_dec e 969) as [L|G].
  - replace (Z.min (fexp prec emax (53 + -52 - (53 + e))) (-52 - e))
      with (-105 - e) by (unfold fexp, emin, prec, emax; lia).
    replace (-52 - e - (-105 - e)) with 53 by lia.
    change (Z.shiftl 4503599627370496 53)
      with 40564819207303340847894502572032.
    pose proof (Z_div_mod 40564819207303340847894502572032 (Zpos m)
                  eq_refl) as D.
    destruct (Z.div_eucl 40564819207303340847894502572032 (Zpos m))
      as [q r].
    destruct D as [D R].
    eexists _, _, _. split; [reflexivity|].
    split; [nia|]. split; [lia|]. intros H. split; [lia|nia].
  - assert (C : e = 970 \/ e = 971) by lia.
    destruct C as [-> | ->].
    + change (Z.min (fexp prec emax (53 + -52 - (53 + 970))) (-52 - 970))
        with (-1074).
      change (-52 - 970 - -1074) with 52.
      change (Z.shiftl 4503599627370496 52)
        with 20282409603651670423947251286016.
      pose proof (Z_div_mod 20282409603651670423947251286016 (Zpos m)
                    eq_refl) as D.
      destruct (Z.div_eucl 20282409603651670423947251286016 (Zpos m))
        as [q r].
      destruct D as [D R].
      eexists _, _, _. split; [reflexivity|].
      split; [nia|]. split; [lia|]. intros H. lia.
    + change (Z.min (fexp prec emax (53 + -52 - (53 + 971))) (-52 - 971))
        with (-1074).
      change (-52 - 971 - -1074) with 51.
      change (Z.shiftl 4503599627370496 51)
        with 10141204801825835211973625643008.
      pose proof (Z_div_mod 10141204801825835211973625643008 (Zpos m)
                    eq_refl) as D.
      destruct (Z.div_eucl 10141204801825835211973625643008 (Zpos m))
        as [q r].
      destruct D as [D R].
      eexists _, _, _. split; [reflexivity|].
      split; [nia|]. split; [lia|]. intros H. lia.
Qed.

(** The mantissa of a binary64 number whose exponent is above the least
    one has 53 digits. *)
Lemma valid_normal (s : bool) (m : positive) (e : Z) :
  valid_binary (S754_finite s m e) = true ->
  -1074 < e ->
  4503599627370496 <= Zpos m < 9007199254740992 /\ e <= 971.
Proof.
  cbn [valid_binary]. unfold bounded, canonical_mantissa.
  intros V E. apply andb_true_iff in V as [C B].
  apply Z.eqb_eq in C. apply Z.leb_le in B.
  unfold fexp, emin, prec, emax in C, B.
  assert (D : Zdigits2 (Zpos m) = 53) by (cbn [Zdigits2]; lia).
  rewrite Zdigits2_log2 in D.
  assert (L : Z.log2 (Zpos m) = 52) by lia.
  pose proof (Z.log2_spec (Zpos m) eq_refl) as S.
  rewrite L in S. change (2 ^ 52) with 4503599627370496 in S.
  change (2 ^ Z.succ 52) with 9007199254740992 in S.
  split; [exact S|exact B].
Qed.

(** Comparison of two positive finite numbers, by exponent and then by
    mantissa. *)
Lemma SFltb_finite_false (m m' : positive) (e e' : Z) :
  SFltb (S754_finite false m e) (S754_finite false m' e') = false ->
  e' < e \/ (e = e' /\ Zpos m' <= Zpos m).
Proof.
  unfold SFltb, SFcompare. destruct (e ?= e') eqn:C.
  - apply Z.compare_eq in C. intros B. right. split; [exact C|].
    destruct (Pos.compare_cont Eq m m') eqn:P; try discriminate B.
    + apply (Pos.compare_eq m m') in P. subst m'. lia.
    + apply (proj1 (Pos.compare_gt_iff m m')) in P. lia.
  - discriminate.
  - apply Z.compare_gt_iff in C. intros _. left. lia.
Qed.

Lemma SFleb_finite (m m' : positive) (e e' : Z) :
  e < e' \/ (e = e' /\ Zpos m <= Zpos m') ->
  SFleb (S754_finite false m e) (S754_finite false m' e') = true.
Proof.
  unfold SFleb, SFcompare. intros H. destruct (e ?= e') eqn:C.
  - apply Z.compare_eq in C.
    destruct (Pos.compare_cont Eq m m') eqn:P; try reflexivity.
    apply (proj1 (Pos.compare_gt_iff m m')) in P. lia.
  - reflexivity.
  - apply Z.compare_gt_iff in C. lia.
Qed.

(** For every binary64 number that is not below 0.1 and is not NaN, the
    binary64 quotient of 1.0 by it is at most 10.0. *)
Lemma inverse_at_most_ten (r : float) :
  (r <? tenth)%float = false -> (r =? r)%float = true ->
  (1 / r <=? 10)%float = true.
Proof.
  rewrite FloatAxioms.ltb_spec, FloatAxioms.eqb_spec, FloatAxioms.leb_spec,
    FloatAxioms.div_spec, tenth_spec, one_spec, ten_spec.
  pose proof (FloatAxioms.Prim2SF_valid r) as V.
  destruct (Prim2SF r) as [s|s| |s m e]; intros B N.
  - destruct s; discriminate B.
  - destruct s; [discriminate B|reflexivity].
  - discriminate N.
  - destruct s; [discriminate B|].
    apply SFltb_finite_false in B.
    destruct (valid_normal false m e V) as [M U]; [lia|].
    unfold SF64div. cbn [SFdiv xorb].
    destruct (div_core_of_one m e M) as (q & e' & l & D & Q & E' & T);
      [lia|].
    rewrite D.
    destruct (binary_round_aux_pos q e' l Q) as (m3 & e3 & R & W);
      [lia|lia|].
    rewrite R. apply SFleb_finite.
    destruct (Z.eq_dec e' (-49)) as [H|H].
    + destruct (T H) as [T0 T1]. right.
      destruct W as [(-> & A & S)|(-> & -> & G)].
      * split; [exact H|]. destruct A as [A|A]; nia.
      * exfalso. nia.
    + destruct W as [(-> & A & S)|(-> & -> & G)]; [left; lia|].
      destruct (Z.eq_dec e' (-50)) as [H'|H']; [right|left; lia].
      split; [lia|]. lia.
Qed.

(** A number that is not equal to itself is NaN: it is below nothing,
    nothing is below it, and the quotient of 1.0 by it is NaN again. *)
Lemma nan_rate (r : float) :
  (r =? r)%float = false ->
  (r <? tenth)%float = false /\
  (tenth <? r)%float = false /\
  (1 / r <=? 10)%float = false /\
  (1 / r =? 1 / r)%float = false.
Proof.
  rewrite FloatAxioms.ltb_spec, FloatAxioms.ltb_spec, !FloatAxioms.eqb_spec,
    FloatAxioms.leb_spec, FloatAxioms.div_spec, tenth_spec, one_spec, ten_spec.
  destruct (Prim2SF r) as [s|s| |s m e]; intros N.
  - discriminate N.
  - destruct s; discriminate N.
  - repeat split; reflexivity.
  - exfalso. unfold SFeqb, SFcompare in N.
    rewrite Z.compare_refl in N.
    assert (P : Pos.compare_cont Eq m m = Eq) by apply Pos.compare_refl.
    rewrite P in N. destruct s; discriminate N.
Qed.

(** At the one failing input: for NaN, [max] returns NaN (0.1 is not
    greater than it), the division is done and its result is NaN, which is
    not at most 10. *)
Example nan_rate_has_nan_period :
  py_max nan tenth = nan /\
  timer_period nan Scenario.boot = (Return nan, Scenario.boot) /\
  (nan <=? 10)%float = false.
Proof. repeat split; vm_compute; reflexivity. Qed.

(** C6, as the code has it.  For every binary64 rate_hz whatever, NaN,
    zeros and infinities included, the period is computed without a division
    by zero and is 1 / max(rate_hz, 0.1); for every rate below 0.1, so for
    zero and every negative rate, it is exactly 10 seconds, and for every
    rate that is a number it is at most 10 seconds, in binary64 as the
    program computes it.  For NaN the clamp slips: 0.1 is not greater than
    NaN, [max(rate_hz, 0.1)] returns the NaN, and the period is NaN, which
    is not at most 10 seconds; with the arguments of [max] the other way
    round the result would have been 0.1. *)
Theorem timer_period_clamped (rate : float) (w : World) :
  timer_period rate w = (Return (1 / py_max rate tenth)%float, w) /\
  (py_max rate tenth =? 0)%float = false /\
  (if (rate <? tenth)%float
   then py_max rate tenth = tenth /\
        timer_period rate w = (Return 10%float, w)
   else py_max rate tenth = rate) /\
  (if (rate <=? 0)%float
   then timer_period rate w = (Return 10%float, w)
   else True) /\
  (if (rate =? rate)%float
   then (1 / py_max rate tenth <=? 10)%float = true
   else py_max rate tenth = rate /\
        (1 / py_max rate tenth <=? 10)%float = false /\
        (1 / py_max rate tenth =? 1 / py_max rate tenth)%float = false /\
        py_max tenth rate = tenth).
Proof.
  split; [apply timer_period_returns|].
  split; [apply divisor_not_zero|].
  split.
  { destruct (rate <? tenth)%float eqn:E.
    - apply timer_period_below_tenth, E.
    - unfold py_max. rewrite E. reflexivity. }
  split.
  { destruct (rate <=? 0)%float eqn:E; [|exact I].
    apply timer_period_below_tenth, not_positive_below_tenth, E. }
  destruct (rate =? rate)%float eqn:N.
  - unfold py_max. destruct (rate <? tenth)%float eqn:E.
    + vm_compute. reflexivity.
    + apply inverse_at_most_ten; assumption.
  - destruct (nan_rate rate N) as (B & A & L & Q).
    unfold py_max. rewrite B, A. repeat split; assumption.
Qed.

(** ** The sequence index *)

Section Index.

Variable clock : nat -> Time.

Lemma tick_frame_idx (self : Node) (w : World) :
  exists self',
    (tick clock self w).1 = Return self' /\
    frame_idx self' =
      (if reads_ok self then frame_idx self + 1 else frame_idx self).
Proof.
  destruct (reads_ok self) eqn:H.
  - destruct (tick_publish clock self w H) as (fL & fR & _ & _ & T).
    rewrite T. eexists. split; reflexivity.
  - rewrite (tick_stop clock self w H). eexists. split; reflexivity.
Qed.

(** The indices of the pairs of a run count up by one from the index the
    run starts with. *)
Lemma published_pairs_indices (fuel : nat) (node : Node) (w : World)
    (k : nat) (p : Z * Image * Image) :
  published_pairs clock fuel node w !! k = Some p ->
  p.1.1 = frame_idx node + Z.of_nat k.
Proof.
  revert node w k. induction fuel as [|fuel IH]; intros node w k; [discriminate|].
  cbn [published_pairs].
  destruct (ctx w); try discriminate.
  destruct (reads_ok node) eqn:H.
  - destruct (tick_pair_facts clock node w H)
      as (mL & mR & self' & T & _ & PP & FI).
    rewrite PP. destruct (tick clock node w) as [r w']. cbn in T. subst r.
    destruct k as [|k]; cbn.
    + intros [= <-]. cbn. lia.
    + intros E. apply IH in E. rewrite E, FI. lia.
  - destruct (tick_stop_facts clock node w H) as (_ & PP & C).
    rewrite PP. destruct (tick clock node w) as [[n'|e] w']; [|discriminate].
    cbn in C. rewrite published_pairs_not_ok by (rewrite C; discriminate).
    discriminate.
Qed.

(** C4: a tick in which a pair is published moves the sequence index on by
    exactly one and any other tick leaves it as it is; over a run of any
    length the index is the starting one plus the number of pairs published
    so far, and from one period of the run to the next it never goes down
    (it stays or goes up by one). *)
Theorem frame_idx_steps_by_one_never_regresses
    (fuel : nat) (node : Node) (w : World) :
  (exists self',
      (tick clock node w).1 = Return self' /\
      frame_idx self' =
        (if reads_ok node then frame_idx node + 1 else frame_idx node) /\
      (if reads_ok node
       then is_Some (published_pair clock node w)
       else published_pair clock node w = None)) /\
  (exists n1 n2,
      (spin clock fuel node w).1 = Return n1 /\
      (spin clock (S fuel) node w).1 = Return n2 /\
      frame_idx n1 =
        frame_idx node
        + Z.of_nat (length (published_pairs clock fuel node w)) /\
      frame_idx node <= frame_idx n1 /\
      frame_idx n1 <= frame_idx n2 <= frame_idx n1 + 1).
Proof.
  split.
  - destruct (tick_frame_idx node w) as (self' & T & F).
    exists self'. split; [exact T|]. split; [exact F|].
    destruct (reads_ok node) eqn:H.
    + destruct (tick_pair_facts clock node w H)
        as (mL & mR & _ & _ & _ & PP & _).
      rewrite PP. eexists. reflexivity.
    + apply (tick_stop_facts clock node w H).
  - destruct (spin_returns clock fuel node w) as (n1 & R1 & _ & _ & F1).
    exists n1. rewrite spin_snoc.
    destruct (spin clock fuel node w) as [r w1]. cbn in R1. subst r.
    assert (S : exists n2,
               (match ctx w1 with
                | CtxOk => tick clock n1 w1
                | _ => (Return n1, w1)
                end).1 = Return n2 /\
               frame_idx n1 <= frame_idx n2 <= frame_idx n1 + 1).
    { destruct (ctx w1); try (exists n1; split; [reflexivity|lia]).
      destruct (tick_frame_idx n1 w1) as (n2 & T & F).
      exists n2. split; [exact T|]. rewrite F.
      destruct (reads_ok n1); lia. }
    destruct S as (n2 & R2 & B).
    exists n2. split; [reflexivity|]. split; [exact R2|].
    split; [exact F1|]. split; [lia|exact B].
Qed.

End Index.

(** ** Startup *)

Lemma declare_parameter_insert (ov : gmap string ParamValue) (name : string)
    (dflt : ParamValue) (params : gmap string ParamValue) :
  declare_parameter ov name dflt params = <[name := param ov name dflt]> params.
Proof.
  unfold declare_parameter, param. destruct (ov !! name); reflexivity.
Qed.

Lemma get_parameter_insert_eq (params : gmap string ParamValue)
    (name : string) (v : ParamValue) :
  get_parameter (<[name := v]> params) name = ret v.
Proof. unfold get_parameter. rewrite lookup_insert_eq. reflexivity. Qed.

Lemma get_parameter_insert_ne (params : gmap string ParamValue)
    (name other : string) (v : ParamValue) :
  other <> name ->
  get_parameter (<[other := v]> params) name = get_parameter params name.
Proof.
  intros H. unfold get_parameter. rewrite lookup_insert_ne by exact H.
  reflexivity.
Qed.

Lemma param_missing_or_empty (ov : gmap string ParamValue) (name : string) :
  missing_or_empty ov name ->
  truthy (string_value (param ov name (PString ""))) = false.
Proof. unfold param. intros [-> | ->]; reflexivity. Qed.

Lemma bind_ret {A B} (a : A) (k : A -> Run B) : bind (ret a) k = k a.
Proof. reflexivity. Qed.

Section Startup.

Variable expanduser : string -> Outcome string.
Variable videos : string -> option (list Frame).
Variable far_seek : Z -> list Frame -> nat.

(** The parameters the constructor reads are the overrides, or the
    defaults where nothing was passed; reading them never fails. *)
Lemma init_reads_parameters (ov : gmap string ParamValue) (w : World) :
  StereoVideoPublisher_init expanduser videos far_seek ov w =
    setup expanduser videos far_seek (cfg_left_video ov) (cfg_right_video ov)
          (cfg_rate_hz ov) (cfg_start_frame ov) w.
Proof.
  unfold StereoVideoPublisher_init, read_parameters. cbv zeta.
  rewrite !declare_parameter_insert.
  rewrite !get_parameter_insert_ne, get_parameter_insert_eq by discriminate.
  rewrite bind_ret.
  rewrite !get_parameter_insert_ne, get_parameter_insert_eq by discriminate.
  rewrite bind_ret.
  rewrite !get_parameter_insert_ne, get_parameter_insert_eq by discriminate.
  rewrite bind_ret.
  rewrite get_parameter_insert_eq, !bind_ret.
  reflexivity.
Qed.

End Startup.

Section Setup.

Variable expanduser : string -> Outcome string.
Variable videos : string -> option (list Frame).
Variable far_seek : Z -> list Frame -> nat.

Lemma setup_missing (l r : string) (rate : float) (start : Z) (w : World) :
  truthy l = false \/ truthy r = false ->
  setup expanduser videos far_seek l r rate start w =
    (Raise (RuntimeError
              "You must pass left_video and right_video parameters."), w).
Proof.
  intros H. unfold setup.
  assert (negb (truthy l) || negb (truthy r) = true) as ->
    by (destruct H as [-> | ->]; [reflexivity|apply orb_true_r]).
  reflexivity.
Qed.

(** A path that cannot be expanded: the error of [expanduser] comes out of
    the constructor as it is, with nothing done yet. *)
Lemma setup_unexpanded (l r : string) (rate : float) (start : Z) (w : World)
    (e : Exception) :
  truthy l = true -> truthy r = true ->
  expanduser l = Raise e \/
  (exists pl, expanduser l = Return pl /\ expanduser r = Raise e) ->
  setup expanduser videos far_seek l r rate start w = (Raise e, w).
Proof.
  intros Hl Hr H. unfold setup. rewrite Hl, Hr. cbn [negb orb].
  unfold bind, of_outcome.
  destruct H as [-> | (pl & -> & ->)]; reflexivity.
Qed.

Lemma setup_left_unopened (l r pl pr : string) (rate : float) (start : Z)
    (w : World) :
  truthy l = true -> truthy r = true ->
  expanduser l = Return pl -> expanduser r = Return pr ->
  videos pl = None ->
  setup expanduser videos far_seek l r rate start w =
    (Raise (RuntimeError ("Cannot open left video: " +:+ pl)),
     mkWorld (ctx w) (clock_reads w)
       (out w ++ [EvCreatePublisher SideL 10; EvCreatePublisher SideR 10;
                  EvOpen SideL pl false;
                  EvOpen SideR pr (bool_decide (is_Some (videos pr)))])).
Proof.
  intros Hl Hr El Er Vl. unfold setup, VideoCapture_new.
  rewrite Hl, Hr. cbn [negb orb]. unfold bind at 1, of_outcome at 1.
  rewrite El. unfold bind at 1, of_outcome at 1. rewrite Er, Vl.
  destruct (videos pr); cbn;
    repeat rewrite <- app_assoc; reflexivity.
Qed.

Lemma setup_right_unopened (l r pl pr : string) (rate : float) (start : Z)
    (w : World)
    (fl : list Frame) :
  truthy l = true -> truthy r = true ->
  expanduser l = Return pl -> expanduser r = Return pr ->
  videos pl = Some fl -> videos pr = None ->
  setup expanduser videos far_seek l r rate start w =
    (Raise (RuntimeError ("Cannot open right video: " +:+ pr)),
     mkWorld (ctx w) (clock_reads w)
       (out w ++ [EvCreatePublisher SideL 10; EvCreatePublisher SideR 10;
                  EvOpen SideL pl true;
                  EvOpen SideR pr false])).
Proof.
  intros Hl Hr El Er Vl Vr. unfold setup, VideoCapture_new.
  rewrite Hl, Hr. cbn [negb orb]. unfold bind at 1, of_outcome at 1.
  rewrite El. unfold bind at 1, of_outcome at 1. rewrite Er, Vl, Vr.
  cbn. repeat rewrite <- app_assoc. reflexivity.
Qed.

(** The seek of the constructor, as events and as captures. *)
Lemma setup_opened (l r pl pr : string) (rate : float) (start : Z)
    (w : World) (fl fr : list Frame) :
  truthy l = true -> truthy r = true ->
  expanduser l = Return pl -> expanduser r = Return pr ->
  videos pl = Some fl -> videos pr = Some fr ->
  setup expanduser videos far_seek l r rate start w =
    (Return
       (mkNode rate start pl pr
          (mkCap fl (seek_position far_seek fl start) true)
          (mkCap fr (seek_position far_seek fr start) true)
          (1 / py_max rate tenth)%float start),
     mkWorld (ctx w) (clock_reads w)
       (out w ++ [EvCreatePublisher SideL 10; EvCreatePublisher SideR 10;
                  EvOpen SideL pl true;
                  EvOpen SideR pr true]
              ++ (if 0 <? start
                  then [EvSeek SideL start; EvSeek SideR start] else [])
              ++ [EvCreateTimer (1 / py_max rate tenth)%float;
                  EvLog LogStarted; EvLog (LogLeft pl);
                  EvLog (LogRight pr);
                  EvLog (LogPublishing rate start)])).
Proof.
  intros Hl Hr El Er Vl Vr. unfold setup, VideoCapture_new, seek_position.
  rewrite Hl, Hr. cbn [negb orb]. unfold bind at 1, of_outcome at 1.
  rewrite El. unfold bind at 1, of_outcome at 1. rewrite Er, Vl, Vr.
  destruct (0 <? start);
    cbn -[timer_period PrimFloat.div py_max Z.leb exact_position_max];
    unfold bind; rewrite timer_period_returns;
    cbn -[PrimFloat.div py_max Z.leb exact_position_max];
    repeat rewrite <- app_assoc; reflexivity.
Qed.

(** A start frame that a C double holds is where the capture stands. *)
Lemma seek_position_exact (fs : list Frame) (start : Z) :
  start <= exact_position_max ->
  seek_position far_seek fs start = Z.to_nat start.
Proof.
  intros B. unfold seek_position, set_pos_frames. cbn [vc_opened vc_pos].
  destruct (0 <? start) eqn:P.
  - apply Z.leb_le in B. rewrite B. reflexivity.
  - apply Z.ltb_ge in P. lia.
Qed.

Lemma remaining_sought (fs : list Frame) (start : Z) :
  start <= exact_position_max ->
  remaining (mkCap fs (seek_position far_seek fs start) true) =
    frames_from fs start.
Proof. intros B. rewrite seek_position_exact by exact B. reflexivity. Qed.

End Setup.

Section StartupClaims.

Variable expanduser : string -> Outcome string.
Variable videos : string -> option (list Frame).
Variable far_seek : Z -> list Frame -> nat.
Variable clock : nat -> Time.

Lemma startup_setup (ov : gmap string ParamValue) (w : World) :
  startup expanduser videos far_seek ov w =
    setup expanduser videos far_seek (cfg_left_video ov) (cfg_right_video ov)
          (cfg_rate_hz ov) (cfg_start_frame ov)
          (mkWorld CtxOk (clock_reads w) (out w ++ [EvRclpyInit])).
Proof.
  unfold startup, rclpy_init, bind. cbn [emit set_ctx ctx clock_reads out].
  apply init_reads_parameters.
Qed.

Lemma main_startup_raises (ov : gmap string ParamValue) (fuel : nat)
    (w w' : World) (e : Exception) :
  startup expanduser videos far_seek ov w = (Raise e, w') ->
  main expanduser videos far_seek clock ov fuel w = (Raise e, w').
Proof. intros H. unfold main, bind. rewrite H. reflexivity. Qed.

(** The first turn of a run whose two reads succeed: the pair of the
    node's index heads the pairs of the run and its two messages head what
    the run publishes. *)
Lemma first_pair_of_run (fuel : nat) (node : Node) (w : World) :
  ctx w = CtxOk -> reads_ok node = true ->
  exists mL mR rest,
    published_pairs clock (S fuel) node w = (frame_idx node, mL, mR) :: rest /\
    published (emitted w (spin clock (S fuel) node w).2) =
      (SideL, mL) :: (SideR, mR) :: flat_map pair_events rest.
Proof.
  intros C H.
  destruct (spin_returns clock (S fuel) node w) as (n' & _ & _ & P & _).
  destruct (tick_pair_facts clock node w H)
    as (mL & mR & self' & T & _ & PP & _).
  exists mL, mR. rewrite P. cbn [published_pairs]. rewrite C, PP.
  destruct (tick clock node w) as [r w1]. cbn [fst] in T. subst r.
  eexists. split; reflexivity.
Qed.

(** A run whose first two reads do not both succeed publishes nothing. *)
Lemma no_pair_of_run (fuel : nat) (node : Node) (w : World) :
  reads_ok node = false ->
  published_pairs clock fuel node w = [] /\
  published (emitted w (spin clock fuel node w).2) = [].
Proof.
  intros H.
  destruct (spin_returns clock fuel node w) as (n' & _ & _ & P & _).
  assert (E : published_pairs clock fuel node w = []).
  { destruct fuel as [|fuel]; [reflexivity|]. cbn [published_pairs].
    destruct (ctx w); try reflexivity.
    destruct (tick_stop_facts clock node w H) as (_ & PP & C).
    rewrite PP.
    destruct (tick clock node w) as [[n1|e] w1]; [|reflexivity].
    cbn [snd] in C. rewrite published_pairs_not_ok by (rewrite C; discriminate).
    reflexivity. }
  split; [exact E|]. rewrite P, E. reflexivity.
Qed.

(** C3: for every configuration with both paths given whose two sources
    open, startup returns the node with the scheduler RUNNING (context ok,
    timer created) and with the sequence index at the configured
    start_frame.  In every run from there, when both sources hold a frame
    where they stand after the constructor's seek, a first pair is
    published and its index is start_frame (its two messages are the first
    two the run publishes), and the k-th pair after it has the index
    start_frame + k; when either source holds no such frame, no pair is
    published at all. *)
Theorem startup_runs_from_start_frame
    (ov : gmap string ParamValue) (w : World) (pl pr : string)
    (fl fr : list Frame) :
  truthy (cfg_left_video ov) = true ->
  truthy (cfg_right_video ov) = true ->
  expanduser (cfg_left_video ov) = Return pl ->
  expanduser (cfg_right_video ov) = Return pr ->
  videos pl = Some fl ->
  videos pr = Some fr ->
  exists node w',
    startup expanduser videos far_seek ov w = (Return node, w') /\
    sched_state w' = RUNNING /\
    frame_idx node = cfg_start_frame ov /\
    (reads_ok node = true <->
     (seek_position far_seek fl (cfg_start_frame ov) < length fl)%nat /\
     (seek_position far_seek fr (cfg_start_frame ov) < length fr)%nat) /\
    (cfg_start_frame ov <= exact_position_max ->
     (reads_ok node = true <->
      (0 < frames_from fl (cfg_start_frame ov))%nat /\
      (0 < frames_from fr (cfg_start_frame ov))%nat)) /\
    (forall fuel,
        reads_ok node = true ->
        exists mL mR rest,
          published_pairs clock (S fuel) node w' =
            (cfg_start_frame ov, mL, mR) :: rest /\
          published (emitted w' (spin clock (S fuel) node w').2) =
            (SideL, mL) :: (SideR, mR) :: flat_map pair_events rest) /\
    (forall fuel,
        reads_ok node = false ->
        published_pairs clock fuel node w' = [] /\
        published (emitted w' (spin clock fuel node w').2) = []) /\
    (forall fuel p,
        head (published_pairs clock fuel node w') = Some p ->
        p.1.1 = cfg_start_frame ov) /\
    (forall fuel k p,
        published_pairs clock fuel node w' !! k = Some p ->
        p.1.1 = cfg_start_frame ov + Z.of_nat k).
Proof.
  intros Hl Hr El Er Vl Vr. rewrite startup_setup.
  rewrite (setup_opened expanduser videos far_seek _ _ pl pr _ _ _ fl fr
             Hl Hr El Er Vl Vr).
  eexists. eexists. split; [reflexivity|].
  split.
  { unfold sched_state. cbn [ctx out].
    rewrite !existsb_app. cbn. rewrite !orb_true_r. reflexivity. }
  split; [reflexivity|].
  assert (R : forall n : Node,
             capL n = mkCap fl (seek_position far_seek fl (cfg_start_frame ov))
                        true ->
             capR n = mkCap fr (seek_position far_seek fr (cfg_start_frame ov))
                        true ->
             reads_ok n = true <->
             (seek_position far_seek fl (cfg_start_frame ov) < length fl)%nat /\
             (seek_position far_seek fr (cfg_start_frame ov) < length fr)%nat).
  { intros n CL CR. rewrite reads_ok_remaining, CL, CR.
    unfold remaining. cbn [vc_opened vc_frames vc_pos]. lia. }
  split; [apply R; reflexivity|].
  split.
  { intros B. etransitivity; [apply R; reflexivity|].
    rewrite !(seek_position_exact far_seek _ _ B). unfold frames_from. lia. }
  split.
  { intros fuel H.
    lazymatch goal with
    | |- context [spin clock (S fuel) ?N ?W] =>
        exact (first_pair_of_run fuel N W eq_refl H)
    end. }
  split.
  { intros fuel H. apply no_pair_of_run, H. }
  split.
  - intros fuel p H. rewrite head_lookup in H.
    apply published_pairs_indices in H. cbn in H. lia.
  - intros fuel k p H. apply published_pairs_indices in H. exact H.
Qed.

(** C9: when a required path parameter is not passed or is passed empty,
    [main] fails with a RuntimeError raised by the constructor before any
    publisher, capture or timer is made (the trace holds [rclpy.init()] and
    nothing else, and the scheduler is still in INIT).  The message is the
    same whichever parameter is missing: it names both parameters,
    left_video and right_video. *)
Theorem missing_path_fails_before_any_source
    (ov : gmap string ParamValue) (fuel : nat) (w : World) :
  missing_or_empty ov "left_video" \/ missing_or_empty ov "right_video" ->
  exists w',
    main expanduser videos far_seek clock ov fuel w =
      (Raise (RuntimeError
                "You must pass left_video and right_video parameters."), w') /\
    emitted w w' = [EvRclpyInit] /\
    sched_state (mkWorld (ctx w') (clock_reads w') (emitted w w')) = INIT /\
    contains "left_video"
      "You must pass left_video and right_video parameters." = true /\
    contains "right_video"
      "You must pass left_video and right_video parameters." = true.
Proof.
  intros H. eexists. split.
  - apply main_startup_raises. rewrite startup_setup. apply setup_missing.
    destruct H as [H|H]; [left|right];
      apply (param_missing_or_empty ov _ H).
  - split; [apply emitted_app; reflexivity|].
    split; [|split; reflexivity].
    erewrite emitted_app by reflexivity. reflexivity.
Qed.

End StartupClaims.

(** ** After the end of a stream *)

Lemma shutdowns_app (a b : list Event) :
  shutdowns (a ++ b) = (shutdowns a + shutdowns b)%nat.
Proof. unfold shutdowns. rewrite List.filter_app, length_app. reflexivity. Qed.

Lemma shutdowns_progress_log (i : Z) : shutdowns (progress_log i) = 0%nat.
Proof. unfold progress_log. destruct (i mod 30 =? 0); reflexivity. Qed.

Section AfterEnd.

Variable clock : nat -> Time.

(** A source that has reported the end of its stream reports it again in
    every later tick. *)
Lemma tick_keeps_exhausted (self : Node) (w : World) :
  reads_ok self = false ->
  exists self',
    (tick clock self w).1 = Return self' /\
    ((read (capL self)).1.1 = false -> (read (capL self')).1.1 = false) /\
    ((read (capR self)).1.1 = false -> (read (capR self')).1.1 = false).
Proof.
  intros H. rewrite (tick_stop clock self w H). eexists.
  split; [reflexivity|]. cbn [capL capR with_caps].
  split; apply read_exhausted_stays.
Qed.

Lemma ticks_after_end (n : nat) (self : Node) (w : World) :
  reads_ok self = false ->
  exists self',
    (ticks clock n self w).1 = Return self' /\
    reads_ok self' = false /\
    out (ticks clock n self w).2 =
      out w ++ emitted w (ticks clock n self w).2 /\
    published (emitted w (ticks clock n self w).2) = [] /\
    shutdowns (emitted w (ticks clock n self w).2) = n /\
    ctx (ticks clock n self w).2 =
      match n with O => ctx w | S _ => CtxShutdown end.
Proof.
  revert self w. induction n as [|n IH]; intros self w H.
  - exists self. cbn. rewrite emitted_refl, app_nil_r. repeat split; auto.
  - destruct (tick_keeps_exhausted self w H) as (s1 & T & KL & KR).
    destruct (tick_stop_facts clock self w H) as (P & _ & C).
    pose proof (tick_out clock self w) as O.
    pose proof (tick_emitted_stop clock self w H) as E.
    assert (H1 : reads_ok s1 = false).
    { apply reads_ok_false. apply reads_ok_false in H.
      destruct H as [H|H]; [left; apply KL, H|right; apply KR, H]. }
    cbn [ticks]. unfold bind.
    destruct (tick clock self w) as [r w1]. cbn [fst snd] in *. subst r.
    destruct (IH s1 w1 H1) as (s2 & T2 & H2 & O2 & P2 & S2 & C2).
    exists s2. split; [exact T2|]. split; [exact H2|].
    destruct (emitted_trans w w1 _ O O2) as [O' E'].
    split; [exact O'|].
    split; [rewrite E', published_app, P, P2; reflexivity|].
    split; [rewrite E', shutdowns_app, S2, E; reflexivity|].
    rewrite C2. destruct n; [exact C|reflexivity].
Qed.

(** Over a run of the spin loop started with the context ok, the context
    is shut down at most once: once exactly when the run ends stopped. *)
Lemma spin_shuts_down_once (fuel : nat) (node : Node) (w : World) :
  ctx w = CtxOk ->
  (ctx (spin clock fuel node w).2 = CtxOk /\
   shutdowns (emitted w (spin clock fuel node w).2) = 0%nat) \/
  (ctx (spin clock fuel node w).2 = CtxShutdown /\
   shutdowns (emitted w (spin clock fuel node w).2) = 1%nat).
Proof.
  revert node w. induction fuel as [|fuel IH]; intros node w C.
  - left. cbn. rewrite emitted_refl. split; [exact C|reflexivity].
  - rewrite (spin_step clock fuel node w C).
    pose proof (tick_out clock node w) as O.
    destruct (reads_ok node) eqn:H.
    + destruct (tick_publish clock node w H) as (fL & fR & _ & _ & T).
      destruct (tick_emitted_publish clock node w H) as (gL & gR & E).
      destruct (tick clock node w) as [r w1]. cbn [fst snd] in *.
      injection T as -> Ew.
      assert (C1 : ctx w1 = CtxOk) by (rewrite Ew; exact C).
      destruct (spin_returns clock fuel
                  (with_frame_idx
                     (with_caps node (read (capL node)).2 (read (capR node)).2)
                     (frame_idx node + 1)) w1) as (n' & _ & O2 & _).
      destruct (emitted_trans w w1 _ O O2) as [_ E'].
      rewrite E', shutdowns_app, E, shutdowns_app, shutdowns_progress_log.
      apply (IH _ w1 C1).
    + pose proof (tick_stop clock node w H) as T.
      pose proof (tick_emitted_stop clock node w H) as E.
      destruct (tick clock node w) as [r w1]. cbn [fst snd] in *.
      injection T as -> Ew.
      assert (C1 : ctx w1 = CtxShutdown) by (rewrite Ew; reflexivity).
      rewrite spin_not_ok by (rewrite C1; discriminate).
      right. cbn [snd]. split; [exact C1|]. rewrite E. reflexivity.
Qed.

(** More fuel changes nothing once the loop has stopped. *)
Lemma spin_stopped_more (fuel k : nat) (node : Node) (w : World) :
  ctx (spin clock fuel node w).2 <> CtxOk ->
  spin clock (fuel + k) node w = spin clock fuel node w /\
  published_pairs clock (fuel + k) node w = published_pairs clock fuel node w.
Proof.
  revert node w. induction fuel as [|fuel IH]; intros node w H.
  - cbn in H. cbn [Nat.add]. rewrite spin_not_ok, published_pairs_not_ok by exact H.
    split; reflexivity.
  - destruct (decide (ctx w = CtxOk)) as [C|C].
    + rewrite (spin_step clock fuel node w C) in H.
      change (S fuel + k)%nat with (S (fuel + k)).
      rewrite !(spin_step clock _ node w C). cbn [published_pairs]. rewrite C.
      destruct (tick clock node w) as [[n1|e] w1]; [|split; reflexivity].
      destruct (IH n1 w1 H) as [-> ->]. split; reflexivity.
    + rewrite !spin_not_ok, !published_pairs_not_ok by exact C.
      split; reflexivity.
Qed.

End AfterEnd.

Section EndClaims.

Variable expanduser : string -> Outcome string.
Variable videos : string -> option (list Frame).
Variable far_seek : Z -> list Frame -> nat.
Variable clock : nat -> Time.

(** C5, as the code has it: once either source has reported the end of its
    stream, nothing is published in that tick or in any tick after it and
    the scheduler is STOPPED from that tick on; the run of the spin loop
    shuts the context down exactly once, in that tick, and invokes no tick
    after it; a tick invoked after the stop all the same publishes nothing
    but does read both sources again. *)
Theorem end_of_stream_stops_publishing
    (n fuel : nat) (self : Node) (w : World) :
  ctx w = CtxOk ->
  (read (capL self)).1.1 = false \/ (read (capR self)).1.1 = false ->
  published (emitted w (ticks clock (S n) self w).2) = [] /\
  sched_state (ticks clock (S n) self w).2 = STOPPED /\
  spin clock (S fuel) self w = tick clock self w /\
  shutdowns (emitted w (spin clock (S fuel) self w).2) = 1%nat /\
  sched_state (spin clock (S fuel) self w).2 = STOPPED /\
  exists self' okL okR,
    (tick clock self w).1 = Return self' /\
    reads (emitted (tick clock self w).2
             (tick clock self' (tick clock self w).2).2) =
      [(SideL, okL); (SideR, okR)] /\
    published (emitted (tick clock self w).2
                 (tick clock self' (tick clock self w).2).2) = [].
Proof.
  intros C H. apply reads_ok_false in H.
  destruct (ticks_after_end clock (S n) self w H)
    as (sn & _ & _ & _ & P & _ & Cn).
  split; [exact P|].
  split; [unfold sched_state; rewrite Cn; reflexivity|].
  assert (SP : spin clock (S fuel) self w = tick clock self w).
  { rewrite (spin_step clock fuel self w C).
    rewrite (tick_stop clock self w H).
    rewrite spin_not_ok by discriminate. reflexivity. }
  split; [exact SP|]. rewrite SP.
  split; [rewrite (tick_emitted_stop clock self w H); reflexivity|].
  destruct (tick_stop_facts clock self w H) as (_ & _ & C1).
  split; [unfold sched_state; rewrite C1; reflexivity|].
  destruct (tick_keeps_exhausted clock self w H) as (s1 & T & KL & KR).
  assert (H1 : reads_ok s1 = false).
  { apply reads_ok_false. apply reads_ok_false in H.
    destruct H as [H|H]; [left; apply KL, H|right; apply KR, H]. }
  exists s1, (read (capL s1)).1.1, (read (capR s1)).1.1.
  split; [exact T|].
  rewrite (tick_emitted_stop clock s1 _ H1). split; reflexivity.
Qed.

(** One turn of the loop, as the run and as the pairs counted. *)
Lemma run_step_publish (fuel : nat) (node : Node) (w : World)
    (fL fR : Frame) :
  ctx w = CtxOk ->
  read (capL node) = (true, Some fL, (read (capL node)).2) ->
  read (capR node) = (true, Some fR, (read (capR node)).2) ->
  spin clock (S fuel) node w =
    spin clock fuel
      (with_frame_idx
         (with_caps node (read (capL node)).2 (read (capR node)).2)
         (frame_idx node + 1))
      (mkWorld CtxOk (S (clock_reads w))
         (out w ++ [EvRead SideL true; EvRead SideR true;
                    EvPublish SideL
                      (stamped fL (clock (clock_reads w)) "left_camera");
                    EvPublish SideR
                      (stamped fR (clock (clock_reads w)) "right_camera")]
                ++ progress_log (frame_idx node))) /\
  published_pairs clock (S fuel) node w =
    (frame_idx node,
     stamped fL (clock (clock_reads w)) "left_camera",
     stamped fR (clock (clock_reads w)) "right_camera")
      :: published_pairs clock fuel
           (with_frame_idx
              (with_caps node (read (capL node)).2 (read (capR node)).2)
              (frame_idx node + 1))
           (mkWorld CtxOk (S (clock_reads w))
              (out w ++ [EvRead SideL true; EvRead SideR true;
                         EvPublish SideL
                           (stamped fL (clock (clock_reads w)) "left_camera");
                         EvPublish SideR
                           (stamped fR (clock (clock_reads w)) "right_camera")]
                     ++ progress_log (frame_idx node))).
Proof.
  intros C RL RR.
  assert (H : reads_ok node = true)
    by (unfold reads_ok; rewrite RL, RR; reflexivity).
  destruct (tick_publish clock node w H) as (gL & gR & EL & ER & T).
  destruct (read_true (capL node)) as (hL & EL' & RL');
    [rewrite RL; reflexivity|].
  destruct (read_true (capR node)) as (hR & ER' & RR');
    [rewrite RR; reflexivity|].
  assert (gL = fL) as -> by congruence.
  assert (gR = fR) as -> by congruence.
  rewrite (spin_step clock fuel node w C). cbn [published_pairs].
  unfold published_pair. rewrite T, C. cbn [snd].
  erewrite emitted_app by reflexivity.
  rewrite published_app, published_progress_log.
  split; reflexivity.
Qed.

Lemma run_step_stop (fuel : nat) (node : Node) (w : World) :
  ctx w = CtxOk ->
  reads_ok node = false ->
  spin clock (S fuel) node w =
    (Return (with_caps node (read (capL node)).2 (read (capR node)).2),
     mkWorld CtxShutdown (clock_reads w)
       (out w ++ [EvRead SideL (read (capL node)).1.1;
                  EvRead SideR (read (capR node)).1.1;
                  EvLog LogEndOfVideo; EvRclpyShutdown])) /\
  published_pairs clock (S fuel) node w = [].
Proof.
  intros C H.
  destruct (tick_stop_facts clock node w H) as (_ & PP & _).
  rewrite (spin_step clock fuel node w C). cbn [published_pairs].
  rewrite C, PP, (tick_stop clock node w H).
  rewrite spin_not_ok, published_pairs_not_ok by discriminate.
  split; reflexivity.
Qed.

(** The run of a node that stands at frame 3 of five frames on the left
    and of ten on the right. *)
Lemma run_from_three (node : Node) (w0 : World) (k : nat)
    (a0 a1 a2 a3 a4 b0 b1 b2 b3 b4 b5 b6 b7 b8 b9 : Frame) :
  capL node = mkCap [a0; a1; a2; a3; a4] 3 true ->
  capR node = mkCap [b0; b1; b2; b3; b4; b5; b6; b7; b8; b9] 3 true ->
  frame_idx node = 3 ->
  ctx w0 = CtxOk ->
  exists node' w' mL3 mR3 mL4 mR4,
    spin clock (3 + k) node w0 = (Return node', w') /\
    published_pairs clock (3 + k) node w0 =
      [(3, mL3, mR3); (4, mL4, mR4)] /\
    published (emitted w0 w') =
      [(SideL, mL3); (SideR, mR3); (SideL, mL4); (SideR, mR4)] /\
    reads (emitted w0 w') =
      [(SideL, true); (SideR, true); (SideL, true); (SideR, true);
       (SideL, false); (SideR, true)] /\
    ctx w' = CtxShutdown /\
    frame_idx node' = 5 /\
    remaining (capL node') = 0%nat /\
    remaining (capR node') = 4%nat.
Proof.
  intros EL ER EI C.
  destruct node as [rate start lp rp cl cr dt0 fi].
  destruct w0 as [c n o]. cbn in EL, ER, EI, C. subst cl cr fi c.
  change (3 + k)%nat with (S (S (S k))).
  destruct (run_step_publish (S (S k))
              (mkNode rate start lp rp
                 (mkCap [a0; a1; a2; a3; a4] 3 true)
                 (mkCap [b0; b1; b2; b3; b4; b5; b6; b7; b8; b9] 3 true)
                 dt0 3)
              (mkWorld CtxOk n o) a3 b3 eq_refl eq_refl eq_refl)
    as [S1 P1].
  rewrite S1, P1. clear S1 P1.
  destruct (run_step_publish (S k)
              (mkNode rate start lp rp
                 (mkCap [a0; a1; a2; a3; a4] 4 true)
                 (mkCap [b0; b1; b2; b3; b4; b5; b6; b7; b8; b9] 4 true)
                 dt0 4)
              (mkWorld CtxOk (S n)
                 (o ++ [EvRead SideL true; EvRead SideR true;
                        EvPublish SideL (stamped a3 (clock n) "left_camera");
                        EvPublish SideR (stamped b3 (clock n) "right_camera")]))
              a4 b4 eq_refl eq_refl eq_refl)
    as [S2 P2].
  destruct (run_step_stop k
              (mkNode rate start lp rp
                 (mkCap [a0; a1; a2; a3; a4] 5 true)
                 (mkCap [b0; b1; b2; b3; b4; b5; b6; b7; b8; b9] 5 true)
                 dt0 5)
              (mkWorld CtxOk (S (S n))
                 ((o ++ [EvRead SideL true; EvRead SideR true;
                         EvPublish SideL (stamped a3 (clock n) "left_camera");
                         EvPublish SideR (stamped b3 (clock n) "right_camera")])
                  ++ [EvRead SideL true; EvRead SideR true;
                      EvPublish SideL
                        (stamped a4 (clock (S n)) "left_camera");
                      EvPublish SideR
                        (stamped b4 (clock (S n)) "right_camera")]))
              eq_refl eq_refl)
    as [S3 P3].
  eexists _, _, _, _, _, _.
  split; [etransitivity; [exact S2|exact S3]|].
  split.
  { apply (f_equal (cons _)). etransitivity; [exact P2|].
    apply (f_equal (cons _)). exact P3. }
  erewrite emitted_app
    by (cbn [out read fst snd capL capR vc_opened vc_frames vc_pos];
        rewrite <- !app_assoc; reflexivity).
  repeat split; reflexivity.
Qed.

(** C7: with start_frame 3, a left file of five frames and a right file of
    ten, every run long enough to reach the end publishes exactly two
    pairs, under the indices 3 and 4, and then stops in its third tick:
    the left read fails there while the right one still succeeds, and the
    right source is left with four frames unread. *)
Theorem five_and_ten_frames_from_three
    (ov : gmap string ParamValue) (w : World) (pl pr : string)
    (fl fr : list Frame) (k : nat) :
  truthy (cfg_left_video ov) = true ->
  truthy (cfg_right_video ov) = true ->
  expanduser (cfg_left_video ov) = Return pl ->
  expanduser (cfg_right_video ov) = Return pr ->
  videos pl = Some fl ->
  videos pr = Some fr ->
  length fl = 5%nat -> length fr = 10%nat ->
  cfg_start_frame ov = 3 ->
  exists node w0 node' w' mL3 mR3 mL4 mR4,
    startup expanduser videos far_seek ov w = (Return node, w0) /\
    spin clock (3 + k) node w0 = (Return node', w') /\
    published_pairs clock (3 + k) node w0 =
      [(3, mL3, mR3); (4, mL4, mR4)] /\
    published (emitted w0 w') =
      [(SideL, mL3); (SideR, mR3); (SideL, mL4); (SideR, mR4)] /\
    reads (emitted w0 w') =
      [(SideL, true); (SideR, true); (SideL, true); (SideR, true);
       (SideL, false); (SideR, true)] /\
    sched_state w' = STOPPED /\
    frame_idx node' = 5 /\
    remaining (capL node') = 0%nat /\
    remaining (capR node') = 4%nat.
Proof.
  intros Hl Hr El Er Vl Vr Ll Lr Hs.
  destruct fl as [|a0 [|a1 [|a2 [|a3 [|a4 [|]]]]]]; try discriminate Ll.
  destruct fr as [|b0 [|b1 [|b2 [|b3 [|b4 [|b5 [|b6 [|b7 [|b8 [|b9 [|]]]]]]]]]]];
    try discriminate Lr.
  rewrite startup_setup.
  rewrite (setup_opened expanduser videos far_seek _ _ pl pr _ _ _ _ _
             Hl Hr El Er Vl Vr).
  rewrite Hs.
  lazymatch goal with
  | |- context [(Return ?N, ?W)] =>
      destruct (run_from_three N W k a0 a1 a2 a3 a4
                  b0 b1 b2 b3 b4 b5 b6 b7 b8 b9
                  eq_refl eq_refl eq_refl eq_refl)
        as (node' & w' & mL3 & mR3 & mL4 & mR4
            & S & P & PB & RD & C & FI & RL & RR);
      exists N, W, node', w', mL3, mR3, mL4, mR4
  end.
  split; [reflexivity|].
  split; [exact S|]. split; [exact P|]. split; [exact PB|].
  split; [exact RD|].
  split; [unfold sched_state; rewrite C; reflexivity|].
  split; [exact FI|]. split; [exact RL|exact RR].
Qed.

End EndClaims.


(** ** The loop ends *)

Lemma read_remaining (c : VideoCapture) :
  (read c).1.1 = true -> remaining (read c).2 = (remaining c - 1)%nat.
Proof.
  intros H. destruct (read_true c H) as (f & E & R). rewrite R.
  unfold read in H. unfold remaining. cbn.
  destruct (vc_opened c); [lia|discriminate].
Qed.

(** With more periods of fuel than the shorter source has frames left, the
    loop started with the context ok ends with the context shut down. *)
Lemma spin_reaches_stop (clock : nat -> Time) (fuel : nat) (node : Node)
    (w : World) :
  ctx w = CtxOk ->
  (Nat.min (remaining (capL node)) (remaining (capR node)) < fuel)%nat ->
  sched_state (spin clock fuel node w).2 = STOPPED.
Proof.
  revert node w. induction fuel as [|fuel IH]; intros node w C L; [lia|].
  destruct (reads_ok node) eqn:H.
  - destruct (tick_publish clock node w H) as (fL & fR & _ & _ & T).
    rewrite (spin_step clock fuel node w C), T.
    unfold reads_ok in H. apply andb_true_iff in H as [HL HR].
    apply IH; [exact C|]. cbn [capL capR with_frame_idx with_caps].
    rewrite (read_remaining _ HL), (read_remaining _ HR).
    apply read_true_remaining in HL, HR. lia.
  - rewrite (spin_step clock fuel node w C), (tick_stop clock node w H).
    rewrite spin_not_ok by discriminate. reflexivity.
Qed.

(** ** The concrete setting *)

Example scenario_started :
  exists w,
    Scenario.started = (Return Scenario.node3, w) /\ sched_state w = RUNNING.
Proof. eexists. split; vm_compute; reflexivity. Qed.

Example scenario_period_of_rate_zero :
  timer_period 0%float Scenario.boot = (Return 10%float, Scenario.boot) /\
  timer_period (-0)%float Scenario.boot = (Return 10%float, Scenario.boot).
Proof. split; vm_compute; reflexivity. Qed.

Example scenario_period_of_negative_rate :
  timer_period (-5)%float Scenario.boot = (Return 10%float, Scenario.boot) /\
  timer_period neg_infinity Scenario.boot = (Return 10%float, Scenario.boot).
Proof. split; vm_compute; reflexivity. Qed.

Example scenario_period_of_default_rate :
  timer_period 10%float Scenario.boot = (Return (1 / 10)%float, Scenario.boot) /\
  timer_period infinity Scenario.boot = (Return 0%float, Scenario.boot).
Proof. split; vm_compute; reflexivity. Qed.

(** Two files of five frames from frame 0: five pairs, indices 0 to 4. *)
Example scenario_five_pairs :
  map (fun p => p.1.1)
    (published_pairs Scenario.clock 10
       (mkNode 10 0 "a" "b" (mkCap (Scenario.frames 5) 0 true)
               (mkCap (Scenario.frames 5) 0 true) (1 / 10) 0)
       Scenario.running)
  = [0; 1; 2; 3; 4].
Proof. vm_compute. reflexivity. Qed.

(** C8, at the failing inputs: when one file opens and the other does not,
    [main] does abort before the timer exists (the scheduler never leaves
    INIT), naming the path that failed; but the constructor runs outside the
    try of [main], so no release is called and the handle that did open is
    still open when the abort is complete. *)
Theorem open_failure_leaves_the_other_handle_open :
  (exists w,
      main Scenario.expanduser Scenario.videos Scenario.far_seek Scenario.clock
           Scenario.overrides_bad_right 10 Scenario.boot =
        (Raise (RuntimeError "Cannot open right video: missing.mp4"), w) /\
      sched_state w = INIT /\
      out w = [EvRclpyInit; EvCreatePublisher SideL 10;
               EvCreatePublisher SideR 10; EvOpen SideL "left.mp4" true;
               EvOpen SideR "missing.mp4" false] /\
      handle_open SideL (out w) = true) /\
  (exists w,
      main Scenario.expanduser Scenario.videos Scenario.far_seek Scenario.clock
           Scenario.overrides_bad_left 10 Scenario.boot =
        (Raise (RuntimeError "Cannot open left video: missing.mp4"), w) /\
      sched_state w = INIT /\
      out w = [EvRclpyInit; EvCreatePublisher SideL 10;
               EvCreatePublisher SideR 10; EvOpen SideL "missing.mp4" false;
               EvOpen SideR "right.mp4" true] /\
      handle_open SideR (out w) = true) /\
  (exists w,
      main Scenario.expanduser Scenario.videos Scenario.far_seek Scenario.clock
           Scenario.overrides 10 Scenario.boot = (Return tt, w) /\
      handle_open SideL (out w) = false /\
      handle_open SideR (out w) = false).
Proof.
  split; [|split]; eexists.
  - split; [vm_compute; reflexivity|].
    split; [vm_compute; reflexivity|].
    split; vm_compute; reflexivity.
  - split; [vm_compute; reflexivity|].
    split; [vm_compute; reflexivity|].
    split; vm_compute; reflexivity.
  - split; [vm_compute; reflexivity|].
    split; vm_compute; reflexivity.
Qed.

(** The same on every input: the open handle is never released on the way
    out of a failed constructor. *)
Lemma right_open_failure_releases_nothing
    (expanduser : string -> Outcome string)
    (videos : string -> option (list Frame))
    (far_seek : Z -> list Frame -> nat)
    (clock : nat -> Time) (ov : gmap string ParamValue) (fuel : nat)
    (w : World) (pl pr : string) (fl : list Frame) :
  truthy (cfg_left_video ov) = true ->
  truthy (cfg_right_video ov) = true ->
  expanduser (cfg_left_video ov) = Return pl ->
  expanduser (cfg_right_video ov) = Return pr ->
  videos pl = Some fl ->
  videos pr = None ->
  exists w',
    main expanduser videos far_seek clock ov fuel w =
      (Raise (RuntimeError ("Cannot open right video: " +:+ pr)), w') /\
    emitted w w' =
      [EvRclpyInit; EvCreatePublisher SideL 10; EvCreatePublisher SideR 10;
       EvOpen SideL pl true;
       EvOpen SideR pr false] /\
    handle_open SideL (emitted w w') = true.
Proof.
  intros Hl Hr El Er Vl Vr. eexists. split.
  - apply main_startup_raises. rewrite startup_setup.
    apply (setup_right_unopened expanduser videos far_seek _ _ pl pr _ _ _ fl
             Hl Hr El Er Vl Vr).
  - erewrite emitted_app
      by (cbn [out]; rewrite <- app_assoc; reflexivity).
    split; reflexivity.
Qed.

(** C5 as stated fails: in the run of the two files of five and ten frames
    from frame 3, a tick that arrives after the stop is no no-op.  It reads
    both sources again, takes one more frame off the right one, logs and
    calls shutdown once more. *)
Lemma late_tick_reads_both_sources :
  exists n0 w0 node w node' w',
    Scenario.started = (Return n0, w0) /\
    spin Scenario.clock 3 n0 w0 = (Return node, w) /\
    sched_state w = STOPPED /\
    tick Scenario.clock node w = (Return node', w') /\
    reads (emitted w w') = [(SideL, false); (SideR, true)] /\
    emitted w w' <> [] /\
    vc_pos (capR node) = 6%nat /\
    vc_pos (capR node') = 7%nat /\
    node' <> node.
Proof.
  do 6 eexists.
  split; [vm_compute; reflexivity|].
  split; [vm_compute; reflexivity|].
  split; [vm_compute; reflexivity|].
  split; [vm_compute; reflexivity|].
  split; [vm_compute; reflexivity|].
  split; [vm_compute; discriminate|].
  split; [reflexivity|]. split; [reflexivity|]. discriminate.
Qed.

(** C9 as stated fails in its second half: the diagnostic does not name
    the offending parameter.  With only left_video missing and with only
    right_video missing the message is one and the same, and in the run
    where left_video alone is missing it names right_video as well, which
    was passed. *)
Lemma missing_path_message_is_the_same :
  exists msg wl wr,
    main Scenario.expanduser Scenario.videos Scenario.far_seek Scenario.clock
         Scenario.overrides_no_left 10 Scenario.boot =
      (Raise (RuntimeError msg), wl) /\
    main Scenario.expanduser Scenario.videos Scenario.far_seek Scenario.clock
         Scenario.overrides_no_right 10 Scenario.boot =
      (Raise (RuntimeError msg), wr) /\
    Scenario.overrides_no_left !! "left_video" = None /\
    Scenario.overrides_no_left !! "right_video" = Some (PString "right.mp4") /\
    Scenario.overrides_no_right !! "left_video" = Some (PString "left.mp4") /\
    Scenario.overrides_no_right !! "right_video" = None /\
    contains "right_video" msg = true /\
    contains "left_video" msg = true.
Proof.
  do 3 eexists.
  split; [vm_compute; reflexivity|].
  split; [vm_compute; reflexivity|].
  split; [vm_compute; reflexivity|].
  split; [vm_compute; reflexivity|].
  split; [vm_compute; reflexivity|].
  split; [vm_compute; reflexivity|].
  split; vm_compute; reflexivity.
Qed.

(** ** The theorems at the concrete setting *)

Lemma tick_pair_witness :
  reads_ok Scenario.node3 = true /\
  exists mL mR,
    published_pair Scenario.clock Scenario.node3 Scenario.running =
      Some (3, mL, mR) /\
    stamp (header mR) = stamp (header mL) /\
    frame_id (header mL) <> frame_id (header mR).
Proof.
  split; [reflexivity|].
  destruct (tick_pair_same_stamp_same_index Scenario.clock Scenario.node3
              Scenario.running eq_refl)
    as (mL & mR & _ & _ & _ & PP & _ & ST & _ & _ & NE & _).
  exists mL, mR. split; [exact PP|]. split; [exact ST|exact NE].
Defined.

Lemma tick_end_of_stream_witness :
  ((read (capL Scenario.node5)).1.1 = false \/
   (read (capR Scenario.node5)).1.1 = false) /\
  published
    (emitted Scenario.running
       (tick Scenario.clock Scenario.node5 Scenario.running).2) = [] /\
  sched_state (tick Scenario.clock Scenario.node5 Scenario.running).2 = STOPPED.
Proof.
  split; [left; reflexivity|].
  destruct (tick_end_of_stream_stops_without_publishing Scenario.clock
              Scenario.node5 Scenario.running (or_introl eq_refl))
    as (P & _ & S & _).
  split; [exact P|exact S].
Defined.

Lemma startup_witness :
  truthy (cfg_left_video Scenario.overrides) = true /\
  truthy (cfg_right_video Scenario.overrides) = true /\
  Scenario.expanduser (cfg_left_video Scenario.overrides) =
    Return "left.mp4" /\
  Scenario.expanduser (cfg_right_video Scenario.overrides) =
    Return "right.mp4" /\
  Scenario.videos "left.mp4" = Some (Scenario.frames 5) /\
  Scenario.videos "right.mp4" = Some (Scenario.frames 10) /\
  exists node w mL mR rest,
    startup Scenario.expanduser Scenario.videos Scenario.far_seek
            Scenario.overrides Scenario.boot = (Return node, w) /\
    sched_state w = RUNNING /\
    frame_idx node = 3 /\
    published_pairs Scenario.clock 1 node w = (3, mL, mR) :: rest /\
    published (emitted w (spin Scenario.clock 1 node w).2) =
      (SideL, mL) :: (SideR, mR) :: flat_map pair_events rest.
Proof.
  assert (Hl : truthy (cfg_left_video Scenario.overrides) = true)
    by (vm_compute; reflexivity).
  assert (Hr : truthy (cfg_right_video Scenario.overrides) = true)
    by (vm_compute; reflexivity).
  assert (El : Scenario.expanduser (cfg_left_video Scenario.overrides) =
               Return "left.mp4") by (vm_compute; reflexivity).
  assert (Er : Scenario.expanduser (cfg_right_video Scenario.overrides) =
               Return "right.mp4") by (vm_compute; reflexivity).
  assert (Vl : Scenario.videos "left.mp4" = Some (Scenario.frames 5))
    by (vm_compute; reflexivity).
  assert (Vr : Scenario.videos "right.mp4" = Some (Scenario.frames 10))
    by (vm_compute; reflexivity).
  split; [exact Hl|]. split; [exact Hr|]. split; [exact El|].
  split; [exact Er|]. split; [exact Vl|]. split; [exact Vr|].
  destruct (startup_runs_from_start_frame Scenario.expanduser Scenario.videos
              Scenario.far_seek Scenario.clock Scenario.overrides
              Scenario.boot "left.mp4" "right.mp4"
              (Scenario.frames 5) (Scenario.frames 10) Hl Hr El Er Vl Vr)
    as (node & w & S & R & F & RO & _ & P & _).
  assert (O : reads_ok node = true)
    by (apply RO; split; vm_compute; lia).
  destruct (P 0%nat O) as (mL & mR & rest & PP & PB).
  exists node, w, mL, mR, rest.
  split; [exact S|]. split; [exact R|]. split; [exact F|].
  split; [exact PP|exact PB].
Defined.

Lemma end_of_stream_witness :
  ctx Scenario.running = CtxOk /\
  ((read (capL Scenario.node5)).1.1 = false \/
   (read (capR Scenario.node5)).1.1 = false) /\
  published
    (emitted Scenario.running
       (ticks Scenario.clock 4 Scenario.node5 Scenario.running).2) = [] /\
  shutdowns
    (emitted Scenario.running
       (spin Scenario.clock 8 Scenario.node5 Scenario.running).2) = 1%nat.
Proof.
  split; [reflexivity|]. split; [left; reflexivity|].
  destruct (end_of_stream_stops_publishing Scenario.clock 3 7 Scenario.node5
              Scenario.running eq_refl (or_introl eq_refl))
    as (P & _ & _ & S & _).
  split; [exact P|exact S].
Defined.

Lemma five_and_ten_frames_witness :
  truthy (cfg_left_video Scenario.overrides) = true /\
  truthy (cfg_right_video Scenario.overrides) = true /\
  Scenario.expanduser (cfg_left_video Scenario.overrides) =
    Return "left.mp4" /\
  Scenario.expanduser (cfg_right_video Scenario.overrides) =
    Return "right.mp4" /\
  Scenario.videos "left.mp4" = Some (Scenario.frames 5) /\
  Scenario.videos "right.mp4" = Some (Scenario.frames 10) /\
  length (Scenario.frames 5) = 5%nat /\
  length (Scenario.frames 10) = 10%nat /\
  cfg_start_frame Scenario.overrides = 3 /\
  exists node w0 node' w',
    startup Scenario.expanduser Scenario.videos Scenario.far_seek
            Scenario.overrides Scenario.boot = (Return node, w0) /\
    spin Scenario.clock (3 + 0) node w0 = (Return node', w') /\
    map (fun p => p.1.1) (published_pairs Scenario.clock 3 node w0) = [3; 4] /\
    sched_state w' = STOPPED.
Proof.
  assert (Hl : truthy (cfg_left_video Scenario.overrides) = true)
    by (vm_compute; reflexivity).
  assert (Hr : truthy (cfg_right_video Scenario.overrides) = true)
    by (vm_compute; reflexivity).
  assert (El : Scenario.expanduser (cfg_left_video Scenario.overrides) =
               Return "left.mp4") by (vm_compute; reflexivity).
  assert (Er : Scenario.expanduser (cfg_right_video Scenario.overrides) =
               Return "right.mp4") by (vm_compute; reflexivity).
  assert (Vl : Scenario.videos "left.mp4" = Some (Scenario.frames 5))
    by (vm_compute; reflexivity).
  assert (Vr : Scenario.videos "right.mp4" = Some (Scenario.frames 10))
    by (vm_compute; reflexivity).
  assert (Ll : length (Scenario.frames 5) = 5%nat) by reflexivity.
  assert (Lr : length (Scenario.frames 10) = 10%nat) by reflexivity.
  assert (Hs : cfg_start_frame Scenario.overrides = 3)
    by (vm_compute; reflexivity).
  split; [exact Hl|]. split; [exact Hr|]. split; [exact El|].
  split; [exact Er|]. split; [exact Vl|]. split; [exact Vr|].
  split; [exact Ll|]. split; [exact Lr|]. split; [exact Hs|].
  destruct (five_and_ten_frames_from_three Scenario.expanduser Scenario.videos
              Scenario.far_seek Scenario.clock Scenario.overrides
              Scenario.boot "left.mp4" "right.mp4"
              (Scenario.frames 5) (Scenario.frames 10) 0
              Hl Hr El Er Vl Vr Ll Lr Hs)
    as (node & w0 & node' & w' & mL3 & mR3 & mL4 & mR4
        & S & R & P & _ & _ & ST & _).
  exists node, w0, node', w'.
  split; [exact S|]. split; [exact R|].
  split; [|exact ST].
  change (3 + 0)%nat with 3%nat in P. rewrite P. reflexivity.
Defined.

Lemma missing_path_witness :
  (missing_or_empty Scenario.overrides_no_right "left_video" \/
   missing_or_empty Scenario.overrides_no_right "right_video") /\
  exists w,
    main Scenario.expanduser Scenario.videos Scenario.far_seek Scenario.clock
         Scenario.overrides_no_right 10 Scenario.boot =
      (Raise (RuntimeError
                "You must pass left_video and right_video parameters."), w) /\
    emitted Scenario.boot w = [EvRclpyInit].
Proof.
  assert (M : missing_or_empty Scenario.overrides_no_right "right_video")
    by (left; vm_compute; reflexivity).
  split; [right; exact M|].
  destruct (missing_path_fails_before_any_source Scenario.expanduser
              Scenario.videos Scenario.far_seek Scenario.clock
              Scenario.overrides_no_right 10
              Scenario.boot (or_intror M))
    as (w & R & E & _).
  exists w. split; [exact R|exact E].
Defined.

(** * More of the program *)

(** ** What a run publishes *)

Lemma read_true_form (c : VideoCapture) :
  (read c).1.1 = true ->
  exists f,
    vc_frames c !! vc_pos c = Some f /\
    read c = (true, Some f, (read c).2) /\
    (read c).2 = mkCap (vc_frames c) (S (vc_pos c)) true.
Proof.
  intros H. destruct (read_true c H) as (f & E & R).
  exists f. split; [exact E|]. rewrite R. split; reflexivity.
Qed.

Section Runs.

Variable clock : nat -> Time.

(** What a run appends after some events is appended after them. *)
Lemma emitted_spin_after (fuel : nat) (node : Node) (w w' : World)
    (evs : list Event) :
  out w' = out w ++ evs ->
  emitted w (spin clock fuel node w').2 =
    evs ++ emitted w' (spin clock fuel node w').2.
Proof.
  intros O. destruct (spin_returns clock fuel node w') as (n' & _ & O2 & _).
  pose proof (emitted_app w w' evs O) as E.
  assert (O' : out w' = out w ++ emitted w w') by (rewrite E; exact O).
  rewrite <- E. apply (proj2 (emitted_trans w w' _ O' O2)).
Qed.

(** The k-th pair of a run carries the k-th frame yet unread of each
    source, the index of the node plus k, and the k-th reading of the
    clock. *)
Lemma published_pairs_content (fuel : nat) (node : Node) (w : World)
    (k : nat) (p : Z * Image * Image) :
  published_pairs clock fuel node w !! k = Some p ->
  exists fL fR,
    vc_frames (capL node) !! (vc_pos (capL node) + k)%nat = Some fL /\
    vc_frames (capR node) !! (vc_pos (capR node) + k)%nat = Some fR /\
    p = (frame_idx node + Z.of_nat k,
         stamped fL (clock (clock_reads w + k)%nat) "left_camera",
         stamped fR (clock (clock_reads w + k)%nat) "right_camera").
Proof.
  revert node w k. induction fuel as [|fuel IH]; intros node w k; [discriminate|].
  destruct (decide (ctx w = CtxOk)) as [C|C].
  2:{ rewrite published_pairs_not_ok by exact C. discriminate. }
  destruct (reads_ok node) eqn:H.
  - unfold reads_ok in H. apply andb_true_iff in H as [HL HR].
    destruct (read_true_form _ HL) as (fL & EL & RL & NL).
    destruct (read_true_form _ HR) as (fR & ER & RR & NR).
    destruct (run_step_publish clock fuel node w fL fR C RL RR) as [_ P].
    rewrite P. destruct k as [|k]; cbn [lookup list_lookup].
    + intros [= <-]. exists fL, fR.
      rewrite !Nat.add_0_r, Z.add_0_r. repeat split; assumption.
    + intros E. apply IH in E. destruct E as (gL & gR & GL & GR & ->).
      cbn [capL capR frame_idx with_frame_idx with_caps clock_reads] in *.
      rewrite NL in GL. rewrite NR in GR. cbn [vc_frames vc_pos] in GL, GR.
      exists gL, gR.
      replace (vc_pos (capL node) + S k)%nat
        with (S (vc_pos (capL node)) + k)%nat by lia.
      replace (vc_pos (capR node) + S k)%nat
        with (S (vc_pos (capR node)) + k)%nat by lia.
      replace (clock_reads w + S k)%nat with (S (clock_reads w) + k)%nat by lia.
      split; [exact GL|]. split; [exact GR|].
      f_equal. f_equal. lia.
  - destruct (run_step_stop clock fuel node w C H) as [_ P].
    rewrite P. discriminate.
Qed.

(** The number of pairs of a run. *)
Lemma published_pairs_length (fuel : nat) (node : Node) (w : World) :
  ctx w = CtxOk ->
  length (published_pairs clock fuel node w) =
    Nat.min fuel (Nat.min (remaining (capL node)) (remaining (capR node))).
Proof.
  revert node w. induction fuel as [|fuel IH]; intros node w C; [reflexivity|].
  destruct (reads_ok node) eqn:H.
  - pose proof (proj1 (reads_ok_remaining node) H) as M.
    unfold reads_ok in H. apply andb_true_iff in H as [HL HR].
    destruct (read_true_form _ HL) as (fL & EL & RL & NL).
    destruct (read_true_form _ HR) as (fR & ER & RR & NR).
    destruct (run_step_publish clock fuel node w fL fR C RL RR) as [_ P].
    rewrite P. cbn [length]. rewrite IH by reflexivity.
    cbn [capL capR with_frame_idx with_caps].
    rewrite (read_remaining _ HL), (read_remaining _ HR). lia.
  - destruct (run_step_stop clock fuel node w C H) as [_ P]. rewrite P.
    assert (M : ~ (0 < Nat.min (remaining (capL node))
                              (remaining (capR node)))%nat).
    { intros M. apply reads_ok_remaining in M. congruence. }
    cbn [length]. lia.
Qed.

(** How a run ends: stopped when a source gave out within the fuel, still
    running when the operator came first. *)
Lemma spin_ctx_after (fuel : nat) (node : Node) (w : World) :
  ctx w = CtxOk ->
  ctx (spin clock fuel node w).2 =
    if decide (Nat.min (remaining (capL node)) (remaining (capR node)) < fuel)%nat
    then CtxShutdown else CtxOk.
Proof.
  revert node w. induction fuel as [|fuel IH]; intros node w C.
  - cbn. rewrite C. case_decide; [lia|reflexivity].
  - destruct (reads_ok node) eqn:H.
    + pose proof (proj1 (reads_ok_remaining node) H) as M.
      unfold reads_ok in H. apply andb_true_iff in H as [HL HR].
      destruct (read_true_form _ HL) as (fL & EL & RL & NL).
      destruct (read_true_form _ HR) as (fR & ER & RR & NR).
      destruct (run_step_publish clock fuel node w fL fR C RL RR) as [S1 _].
      rewrite S1, IH by reflexivity.
      cbn [capL capR with_frame_idx with_caps].
      rewrite (read_remaining _ HL), (read_remaining _ HR).
      repeat case_decide; try reflexivity; lia.
    + destruct (run_step_stop clock fuel node w C H) as [S1 _]. rewrite S1.
      assert (M : ~ (0 < Nat.min (remaining (capL node))
                                (remaining (capR node)))%nat).
      { intros M. apply reads_ok_remaining in M. congruence. }
      cbn [snd ctx]. case_decide; [reflexivity|lia].
Qed.

End Runs.

Lemma length_pair_events (l : list (Z * Image * Image)) :
  length (flat_map pair_events l) = (2 * length l)%nat.
Proof. induction l as [|p l IH]; cbn; [reflexivity|]. rewrite IH. lia. Qed.

Lemma on_topic_app (s : Side) (a b : list (Side * Image)) :
  on_topic s (a ++ b) = on_topic s a ++ on_topic s b.
Proof. unfold on_topic. apply omap_app. Qed.

Lemma on_topic_pair_events (l : list (Z * Image * Image)) :
  on_topic SideL (flat_map pair_events l) = map (fun p => p.1.2) l /\
  on_topic SideR (flat_map pair_events l) = map (fun p => p.2) l.
Proof.
  induction l as [|p l [IL IR]]; [split; reflexivity|].
  cbn [flat_map]. rewrite !on_topic_app, IL, IR. split; reflexivity.
Qed.

Lemma progress_lines_app (a b : list Event) :
  progress_lines (a ++ b) = progress_lines a ++ progress_lines b.
Proof. unfold progress_lines. apply omap_app. Qed.

Lemma reads_app (a b : list Event) : reads (a ++ b) = reads a ++ reads b.
Proof. unfold reads. apply omap_app. Qed.

Lemma end_lines_app (a b : list Event) :
  end_lines (a ++ b) = (end_lines a + end_lines b)%nat.
Proof. unfold end_lines. rewrite List.filter_app, length_app. reflexivity. Qed.

Lemma progress_lines_progress_log (i : Z) :
  progress_lines (progress_log i) = if i mod 30 =? 0 then [i] else [].
Proof. unfold progress_log. destruct (i mod 30 =? 0); reflexivity. Qed.

Lemma reads_progress_log (i : Z) : reads (progress_log i) = [].
Proof. unfold progress_log. destruct (i mod 30 =? 0); reflexivity. Qed.

Lemma end_lines_progress_log (i : Z) : end_lines (progress_log i) = 0%nat.
Proof. unfold progress_log. destruct (i mod 30 =? 0); reflexivity. Qed.

Section RunTheorems.

Variable clock : nat -> Time.

(** X1: a run started with the context ok publishes as many pairs as it has
    periods of fuel or as the shorter source has frames left, whichever is
    less, and twice as many messages: one per pair on each topic. *)
Theorem run_publishes_min_of_fuel_and_frames_left
    (fuel : nat) (node : Node) (w : World) :
  ctx w = CtxOk ->
  length (published_pairs clock fuel node w) =
    Nat.min fuel (Nat.min (remaining (capL node)) (remaining (capR node))) /\
  length (published (emitted w (spin clock fuel node w).2)) =
    (2 * Nat.min fuel
           (Nat.min (remaining (capL node)) (remaining (capR node))))%nat /\
  length (on_topic SideL (published (emitted w (spin clock fuel node w).2))) =
    Nat.min fuel (Nat.min (remaining (capL node)) (remaining (capR node))) /\
  length (on_topic SideR (published (emitted w (spin clock fuel node w).2))) =
    Nat.min fuel (Nat.min (remaining (capL node)) (remaining (capR node))).
Proof.
  intros C. pose proof (published_pairs_length clock fuel node w C) as L.
  destruct (spin_returns clock fuel node w) as (n' & _ & _ & P & _).
  destruct (on_topic_pair_events (published_pairs clock fuel node w)) as [TL TR].
  split; [exact L|]. rewrite P, length_pair_events, TL, TR, !length_map, L.
  repeat split; reflexivity.
Qed.

(** X2: whatever the run, the two topics stay paired.  They hold the same
    number of messages, and the k-th message on the left and the k-th on
    the right are the two of one tick: same timestamp, labels left_camera
    and right_camera. *)
Theorem topics_stay_paired (fuel : nat) (node : Node) (w : World) :
  length (on_topic SideL (published (emitted w (spin clock fuel node w).2))) =
  length (on_topic SideR (published (emitted w (spin clock fuel node w).2))) /\
  forall (k : nat) (mL : Image),
    on_topic SideL (published (emitted w (spin clock fuel node w).2)) !! k
      = Some mL ->
    exists mR,
      on_topic SideR (published (emitted w (spin clock fuel node w).2)) !! k
        = Some mR /\
      stamp (header mR) = stamp (header mL) /\
      frame_id (header mL) = "left_camera" /\
      frame_id (header mR) = "right_camera".
Proof.
  destruct (spin_returns clock fuel node w) as (n' & _ & _ & P & _).
  destruct (on_topic_pair_events (published_pairs clock fuel node w)) as [TL TR].
  rewrite P, TL, TR, !length_map. split; [reflexivity|].
  intros k mL H. rewrite list_lookup_fmap in H.
  destruct (published_pairs clock fuel node w !! k) as [p|] eqn:E;
    [|discriminate H].
  cbn in H. injection H as <-.
  exists p.2. rewrite list_lookup_fmap, E. split; [reflexivity|].
  destruct (published_pairs_content clock fuel node w k p E)
    as (fL & fR & _ & _ & ->).
  repeat split; reflexivity.
Qed.

Lemma spin_clock_reads (fuel : nat) (node : Node) (w : World) :
  clock_reads (spin clock fuel node w).2 =
    (clock_reads w + length (published_pairs clock fuel node w))%nat.
Proof.
  revert node w. induction fuel as [|fuel IH]; intros node w; [cbn; lia|].
  destruct (decide (ctx w = CtxOk)) as [C|C].
  2:{ rewrite spin_not_ok, published_pairs_not_ok by exact C. cbn. lia. }
  destruct (reads_ok node) eqn:H.
  - unfold reads_ok in H. apply andb_true_iff in H as [HL HR].
    destruct (read_true_form _ HL) as (fL & EL & RL & NL).
    destruct (read_true_form _ HR) as (fR & ER & RR & NR).
    destruct (run_step_publish clock fuel node w fL fR C RL RR) as [S1 P].
    rewrite S1, P, IH. cbn [clock_reads length]. lia.
  - destruct (run_step_stop clock fuel node w C H) as [S1 P].
    rewrite S1, P. cbn. lia.
Qed.

(** X3: the clock is read once for every pair published and not at all in
    a tick that stops; the k-th pair of a run is stamped, on both messages,
    with the k-th reading from where the run began. *)
Theorem one_clock_reading_per_pair (fuel : nat) (node : Node) (w : World) :
  clock_reads (spin clock fuel node w).2 =
    (clock_reads w + length (published_pairs clock fuel node w))%nat /\
  forall (k : nat) (p : Z * Image * Image),
    published_pairs clock fuel node w !! k = Some p ->
    stamp (header p.1.2) = clock (clock_reads w + k)%nat /\
    stamp (header p.2) = clock (clock_reads w + k)%nat.
Proof.
  split; [apply spin_clock_reads|].
  intros k p E.
  destruct (published_pairs_content clock fuel node w k p E)
    as (fL & fR & _ & _ & ->).
  split; reflexivity.
Qed.

(** X4: the progress lines of a run are the indices of its published pairs
    that are multiples of 30, each logged once and in order; no other tick
    logs one. *)
Theorem progress_line_every_thirtieth_index
    (fuel : nat) (node : Node) (w : World) :
  progress_lines (emitted w (spin clock fuel node w).2) =
    List.filter (fun i => i mod 30 =? 0)
      (map (fun p => p.1.1) (published_pairs clock fuel node w)).
Proof.
  revert node w. induction fuel as [|fuel IH]; intros node w.
  - cbn. rewrite emitted_refl. reflexivity.
  - destruct (decide (ctx w = CtxOk)) as [C|C].
    2:{ rewrite spin_not_ok, published_pairs_not_ok by exact C.
        cbn. rewrite emitted_refl. reflexivity. }
    destruct (reads_ok node) eqn:H.
    + unfold reads_ok in H. apply andb_true_iff in H as [HL HR].
      destruct (read_true_form _ HL) as (fL & EL & RL & NL).
      destruct (read_true_form _ HR) as (fR & ER & RR & NR).
      destruct (run_step_publish clock fuel node w fL fR C RL RR) as [S1 P].
      rewrite S1, P. erewrite emitted_spin_after by reflexivity.
      rewrite !progress_lines_app, progress_lines_progress_log, IH.
      cbn [map List.filter fst progress_lines omap app].
      destruct (frame_idx node mod 30 =? 0); reflexivity.
    + destruct (run_step_stop clock fuel node w C H) as [S1 P].
      rewrite S1, P. cbn [snd]. erewrite emitted_app by reflexivity.
      reflexivity.
Qed.

Lemma spin_reads_and_end_lines (fuel : nat) (node : Node) (w : World) :
  ctx w = CtxOk ->
  length (reads (emitted w (spin clock fuel node w).2)) =
    (2 * Nat.min fuel
           (S (Nat.min (remaining (capL node)) (remaining (capR node)))))%nat /\
  end_lines (emitted w (spin clock fuel node w).2) =
    (if decide (Nat.min (remaining (capL node)) (remaining (capR node)) < fuel)%nat
     then 1 else 0)%nat.
Proof.
  revert node w. induction fuel as [|fuel IH]; intros node w C.
  - cbn. rewrite emitted_refl. split; [reflexivity|].
    case_decide; [lia|reflexivity].
  - destruct (reads_ok node) eqn:H.
    + pose proof (proj1 (reads_ok_remaining node) H) as M.
      unfold reads_ok in H. apply andb_true_iff in H as [HL HR].
      destruct (read_true_form _ HL) as (fL & EL & RL & NL).
      destruct (read_true_form _ HR) as (fR & ER & RR & NR).
      destruct (run_step_publish clock fuel node w fL fR C RL RR) as [S1 _].
      rewrite S1. erewrite emitted_spin_after by reflexivity.
      rewrite !reads_app, !end_lines_app, !length_app, reads_progress_log,
        end_lines_progress_log.
      match goal with
      | |- context [spin clock fuel ?n ?v] =>
          destruct (IH n v eq_refl) as [IR IE]
      end.
      rewrite IR, IE. cbn [capL capR with_frame_idx with_caps].
      rewrite (read_remaining _ HL), (read_remaining _ HR).
      split; [cbn; lia|]. cbn. repeat case_decide; try reflexivity; lia.
    + assert (M : ~ (0 < Nat.min (remaining (capL node))
                                (remaining (capR node)))%nat).
      { intros M. apply reads_ok_remaining in M. congruence. }
      destruct (run_step_stop clock fuel node w C H) as [S1 _].
      rewrite S1. cbn [snd]. erewrite emitted_app by reflexivity.
      split; [cbn; lia|]. cbn. case_decide; [reflexivity|lia].
Qed.

(** X5: a run started with the context ok ends STOPPED exactly when the
    shorter source has fewer frames left than the run has periods;
    otherwise the context is still ok when it ends.  It makes one tick
    more than it publishes pairs if it stops, reads both sources in every
    tick it makes, and logs the end-of-video line once if it stops and
    never if it does not. *)
Theorem run_stops_when_a_source_gives_out
    (fuel : nat) (node : Node) (w : World) :
  ctx w = CtxOk ->
  (sched_state (spin clock fuel node w).2 = STOPPED <->
   (Nat.min (remaining (capL node)) (remaining (capR node)) < fuel)%nat) /\
  ((fuel <= Nat.min (remaining (capL node)) (remaining (capR node)))%nat ->
   ctx (spin clock fuel node w).2 = CtxOk) /\
  length (reads (emitted w (spin clock fuel node w).2)) =
    (2 * Nat.min fuel
           (S (Nat.min (remaining (capL node)) (remaining (capR node)))))%nat /\
  end_lines (emitted w (spin clock fuel node w).2) =
    (if decide (Nat.min (remaining (capL node)) (remaining (capR node)) < fuel)%nat
     then 1 else 0)%nat.
Proof.
  intros C. pose proof (spin_ctx_after clock fuel node w C) as A.
  destruct (spin_reads_and_end_lines fuel node w C) as [R E].
  split; [|split; [|split; [exact R|exact E]]].
  - unfold sched_state. rewrite A. case_decide.
    + split; [intros _; assumption|reflexivity].
    + split; [|lia]. destruct (existsb _ _); discriminate.
  - intros L. rewrite A. case_decide; [lia|reflexivity].
Qed.

End RunTheorems.

(** ** What a run never does *)

Lemma open_after_run_events (s : Side) (st : bool) (evs : list Event) :
  forallb is_run_event evs = true -> open_after s st evs = st.
Proof.
  revert st. induction evs as [|e evs IH]; intros st H; [reflexivity|].
  cbn in H. apply andb_true_iff in H as [He H].
  destruct e; try discriminate He; cbn; apply IH, H.
Qed.

Lemma open_after_app (s : Side) (st : bool) (a b : list Event) :
  open_after s st (a ++ b) = open_after s (open_after s st a) b.
Proof.
  revert st. induction a as [|e a IH]; intros st; [reflexivity|].
  destruct e; cbn; apply IH.
Qed.

Lemma run_events_are_no_others (evs : list Event) :
  forallb is_run_event evs = true ->
  List.filter is_release evs = [] /\
  seeks evs = [] /\
  existsb is_create_timer evs = false.
Proof.
  induction evs as [|e evs IH]; intros H; [repeat split; reflexivity|].
  cbn in H. apply andb_true_iff in H as [He H].
  destruct (IH H) as (R & K & T).
  destruct e; try discriminate He; cbn; repeat split; assumption.
Qed.

Lemma run_events_progress_log (i : Z) :
  forallb is_run_event (progress_log i) = true.
Proof. unfold progress_log. destruct (i mod 30 =? 0); reflexivity. Qed.

Lemma spin_run_events (clock : nat -> Time) (fuel : nat) (node : Node)
    (w : World) :
  forallb is_run_event (emitted w (spin clock fuel node w).2) = true.
Proof.
  revert node w. induction fuel as [|fuel IH]; intros node w.
  - cbn. rewrite emitted_refl. reflexivity.
  - destruct (decide (ctx w = CtxOk)) as [C|C].
    2:{ rewrite spin_not_ok by exact C. cbn. rewrite emitted_refl. reflexivity. }
    destruct (reads_ok node) eqn:H.
    + unfold reads_ok in H. apply andb_true_iff in H as [HL HR].
      destruct (read_true_form _ HL) as (fL & EL & RL & NL).
      destruct (read_true_form _ HR) as (fR & ER & RR & NR).
      destruct (run_step_publish clock fuel node w fL fR C RL RR) as [S1 _].
      rewrite S1. erewrite emitted_spin_after by reflexivity.
      rewrite !forallb_app, run_events_progress_log, IH. reflexivity.
    + destruct (run_step_stop clock fuel node w C H) as [S1 _].
      rewrite S1. cbn [snd]. erewrite emitted_app by reflexivity.
      reflexivity.
Qed.

(** X6: the timer callback touches the outside only by reading the two
    captures, publishing, logging and shutting the context down: a run of
    any length opens, seeks and releases no capture and creates no
    publisher or timer, so the handles are as open after it as before. *)
Theorem run_leaves_the_handles_as_they_are
    (clock : nat -> Time) (fuel : nat) (node : Node) (w : World)
    (s : Side) (st : bool) :
  forallb is_run_event (emitted w (spin clock fuel node w).2) = true /\
  List.filter is_release (emitted w (spin clock fuel node w).2) = [] /\
  seeks (emitted w (spin clock fuel node w).2) = [] /\
  existsb is_create_timer (emitted w (spin clock fuel node w).2) = false /\
  open_after s st (emitted w (spin clock fuel node w).2) = st.
Proof.
  pose proof (spin_run_events clock fuel node w) as H.
  destruct (run_events_are_no_others _ H) as (R & K & T).
  split; [exact H|]. split; [exact R|]. split; [exact K|].
  split; [exact T|apply open_after_run_events, H].
Qed.

(** ** From startup to the way out *)

(** The k-th pair of a run, for every k below the number of pairs. *)
Lemma published_pairs_lookup (clock : nat -> Time) (fuel : nat) (node : Node)
    (w : World) (k : nat) :
  ctx w = CtxOk ->
  (k < Nat.min fuel (Nat.min (remaining (capL node)) (remaining (capR node))))%nat ->
  exists fL fR,
    vc_frames (capL node) !! (vc_pos (capL node) + k)%nat = Some fL /\
    vc_frames (capR node) !! (vc_pos (capR node) + k)%nat = Some fR /\
    published_pairs clock fuel node w !! k =
      Some (frame_idx node + Z.of_nat k,
            stamped fL (clock (clock_reads w + k)%nat) "left_camera",
            stamped fR (clock (clock_reads w + k)%nat) "right_camera").
Proof.
  intros C K.
  rewrite <- (published_pairs_length clock fuel node w C) in K.
  apply lookup_lt_is_Some_2 in K. destruct K as [p E].
  destruct (published_pairs_content clock fuel node w k p E)
    as (fL & fR & GL & GR & ->).
  exists fL, fR. split; [exact GL|]. split; [exact GR|exact E].
Qed.

Section Whole.

Variable expanduser : string -> Outcome string.
Variable videos : string -> option (list Frame).
Variable far_seek : Z -> list Frame -> nat.
Variable clock : nat -> Time.

(** The node and the world a successful startup leaves. *)
Lemma startup_opened (ov : gmap string ParamValue) (w : World)
    (pl pr : string) (fl fr : list Frame) :
  truthy (cfg_left_video ov) = true ->
  truthy (cfg_right_video ov) = true ->
  expanduser (cfg_left_video ov) = Return pl ->
  expanduser (cfg_right_video ov) = Return pr ->
  videos pl = Some fl ->
  videos pr = Some fr ->
  exists node w0,
    startup expanduser videos far_seek ov w = (Return node, w0) /\
    ctx w0 = CtxOk /\
    clock_reads w0 = clock_reads w /\
    out w0 = out w ++ emitted w w0 /\
    emitted w w0 =
      [EvRclpyInit; EvCreatePublisher SideL 10; EvCreatePublisher SideR 10;
       EvOpen SideL pl true;
       EvOpen SideR pr true]
      ++ (if 0 <? cfg_start_frame ov
          then [EvSeek SideL (cfg_start_frame ov);
                EvSeek SideR (cfg_start_frame ov)]
          else [])
      ++ [EvCreateTimer (1 / py_max (cfg_rate_hz ov) tenth)%float;
          EvLog LogStarted;
          EvLog (LogLeft pl);
          EvLog (LogRight pr);
          EvLog (LogPublishing (cfg_rate_hz ov) (cfg_start_frame ov))] /\
    node = mkNode (cfg_rate_hz ov) (cfg_start_frame ov) pl pr
             (mkCap fl (seek_position far_seek fl (cfg_start_frame ov)) true)
             (mkCap fr (seek_position far_seek fr (cfg_start_frame ov)) true)
             (1 / py_max (cfg_rate_hz ov) tenth)%float
             (cfg_start_frame ov).
Proof.
  intros Hl Hr El Er Vl Vr. rewrite startup_setup.
  rewrite (setup_opened expanduser videos far_seek _ _ pl pr _ _ _ fl fr
             Hl Hr El Er Vl Vr).
  eexists. eexists. split; [reflexivity|].
  split; [reflexivity|]. split; [reflexivity|].
  assert (E : forall evs : list Event,
             emitted w (mkWorld CtxOk (clock_reads w)
                          ((out w ++ [EvRclpyInit]) ++ evs)) =
             EvRclpyInit :: evs).
  { intros evs. apply emitted_app. cbn [out]. rewrite <- app_assoc.
    reflexivity. }
  cbn [ctx clock_reads out]. rewrite E.
  split; [cbn [out]; rewrite <- app_assoc; reflexivity|].
  split; reflexivity.
Qed.

(** The same when the start frame is one a C double holds: the captures
    stand at that frame, or at the first one when it is not positive. *)
Lemma startup_opened_exact (ov : gmap string ParamValue) (w : World)
    (pl pr : string) (fl fr : list Frame) :
  truthy (cfg_left_video ov) = true ->
  truthy (cfg_right_video ov) = true ->
  expanduser (cfg_left_video ov) = Return pl ->
  expanduser (cfg_right_video ov) = Return pr ->
  videos pl = Some fl ->
  videos pr = Some fr ->
  cfg_start_frame ov <= exact_position_max ->
  exists node w0,
    startup expanduser videos far_seek ov w = (Return node, w0) /\
    ctx w0 = CtxOk /\
    clock_reads w0 = clock_reads w /\
    frame_idx node = cfg_start_frame ov /\
    capL node = mkCap fl (Z.to_nat (cfg_start_frame ov)) true /\
    capR node = mkCap fr (Z.to_nat (cfg_start_frame ov)) true /\
    seeks (emitted w w0) =
      (if 0 <? cfg_start_frame ov
       then [(SideL, cfg_start_frame ov); (SideR, cfg_start_frame ov)]
       else []) /\
    end_lines (emitted w w0) = 0%nat.
Proof.
  intros Hl Hr El Er Vl Vr B.
  destruct (startup_opened ov w pl pr fl fr Hl Hr El Er Vl Vr)
    as (node & w0 & S & C & CR & O & E & N).
  exists node, w0. split; [exact S|]. split; [exact C|]. split; [exact CR|].
  rewrite N, E. cbn [frame_idx capL capR].
  rewrite !(seek_position_exact far_seek _ _ B).
  split; [reflexivity|]. split; [reflexivity|]. split; [reflexivity|].
  destruct (0 <? cfg_start_frame ov); split; reflexivity.
Qed.

(** X7: after a startup with a start_frame from 0 to 2^53, the k-th pair
    of a run, for every k below the number of periods and of frames that
    both files hold from start_frame on, is published under the index
    start_frame + k and carries frame start_frame + k of the left file and
    of the right file; so every pair published under an index i carries
    frame i of each file, each as a bgr8 message around the frame's own
    bytes.  Both captures are sought to start_frame when it is positive
    and not touched when it is 0. *)
Theorem pair_carries_the_frames_of_its_index
    (ov : gmap string ParamValue) (w : World) (pl pr : string)
    (fl fr : list Frame) :
  truthy (cfg_left_video ov) = true ->
  truthy (cfg_right_video ov) = true ->
  expanduser (cfg_left_video ov) = Return pl ->
  expanduser (cfg_right_video ov) = Return pr ->
  videos pl = Some fl ->
  videos pr = Some fr ->
  0 <= cfg_start_frame ov <= exact_position_max ->
  exists node w0,
    startup expanduser videos far_seek ov w = (Return node, w0) /\
    seeks (emitted w w0) =
      (if 0 <? cfg_start_frame ov
       then [(SideL, cfg_start_frame ov); (SideR, cfg_start_frame ov)]
       else []) /\
    (forall fuel k : nat,
        (k < Nat.min fuel
               (Nat.min (frames_from fl (cfg_start_frame ov))
                        (frames_from fr (cfg_start_frame ov))))%nat ->
        exists fL fR,
          fl !! Z.to_nat (cfg_start_frame ov + Z.of_nat k) = Some fL /\
          fr !! Z.to_nat (cfg_start_frame ov + Z.of_nat k) = Some fR /\
          published_pairs clock fuel node w0 !! k =
            Some (cfg_start_frame ov + Z.of_nat k,
                  stamped fL (clock (clock_reads w + k)%nat) "left_camera",
                  stamped fR (clock (clock_reads w + k)%nat) "right_camera")) /\
    (forall (fuel k : nat) (p : Z * Image * Image),
        published_pairs clock fuel node w0 !! k = Some p ->
        exists fL fR,
          fl !! Z.to_nat p.1.1 = Some fL /\
          fr !! Z.to_nat p.1.1 = Some fR /\
          p.1.2 = stamped fL (clock (clock_reads w + k)%nat) "left_camera" /\
          p.2 = stamped fR (clock (clock_reads w + k)%nat) "right_camera" /\
          data p.1.2 = pixels fL /\ data p.2 = pixels fR /\
          height p.1.2 = rows fL /\ width p.1.2 = cols fL /\
          height p.2 = rows fR /\ width p.2 = cols fR /\
          encoding p.1.2 = "bgr8" /\ encoding p.2 = "bgr8").
Proof.
  intros Hl Hr El Er Vl Vr [S0 B].
  destruct (startup_opened_exact ov w pl pr fl fr Hl Hr El Er Vl Vr B)
    as (node & w0 & S & C & CR & FI & NL & NR & SK & _).
  exists node, w0. split; [exact S|]. split; [exact SK|].
  split.
  - intros fuel k K.
    destruct (published_pairs_lookup clock fuel node w0 k C) as
      (fL & fR & GL & GR & E).
    { rewrite NL, NR. exact K. }
    rewrite NL in GL. rewrite NR in GR. cbn [vc_frames vc_pos] in GL, GR.
    rewrite FI, CR in E. exists fL, fR.
    replace (Z.to_nat (cfg_start_frame ov + Z.of_nat k))
      with (Z.to_nat (cfg_start_frame ov) + k)%nat by lia.
    split; [exact GL|]. split; [exact GR|exact E].
  - intros fuel k p H.
    destruct (published_pairs_content clock fuel node w0 k p H)
      as (fL & fR & GL & GR & ->).
    rewrite NL in GL. rewrite NR in GR. cbn [vc_frames vc_pos] in GL, GR.
    rewrite FI, CR. cbn [fst snd].
    exists fL, fR.
    replace (Z.to_nat (cfg_start_frame ov + Z.of_nat k))
      with (Z.to_nat (cfg_start_frame ov) + k)%nat by lia.
    split; [exact GL|]. split; [exact GR|]. repeat split; reflexivity.
Qed.

(** X8: a start_frame of 0 or below seeks nothing: both files are read
    from their first frame while the index starts at start_frame.  For
    every k below the number of periods and of frames both files hold, the
    k-th pair is published, under the index start_frame + k, and carries
    frame k of each file; so with a negative start_frame the index of a
    pair is not the number of the frame it carries. *)
Theorem nonpositive_start_frame_reads_from_the_first_frame
    (ov : gmap string ParamValue) (w : World) (pl pr : string)
    (fl fr : list Frame) :
  truthy (cfg_left_video ov) = true ->
  truthy (cfg_right_video ov) = true ->
  expanduser (cfg_left_video ov) = Return pl ->
  expanduser (cfg_right_video ov) = Return pr ->
  videos pl = Some fl ->
  videos pr = Some fr ->
  cfg_start_frame ov <= 0 ->
  exists node w0,
    startup expanduser videos far_seek ov w = (Return node, w0) /\
    seeks (emitted w w0) = [] /\
    vc_pos (capL node) = 0%nat /\ vc_pos (capR node) = 0%nat /\
    frame_idx node = cfg_start_frame ov /\
    (forall fuel : nat,
        length (published_pairs clock fuel node w0) =
          Nat.min fuel (Nat.min (length fl) (length fr))) /\
    (forall fuel k : nat,
        (k < Nat.min fuel (Nat.min (length fl) (length fr)))%nat ->
        exists fL fR,
          fl !! k = Some fL /\ fr !! k = Some fR /\
          published_pairs clock fuel node w0 !! k =
            Some (cfg_start_frame ov + Z.of_nat k,
                  stamped fL (clock (clock_reads w + k)%nat) "left_camera",
                  stamped fR (clock (clock_reads w + k)%nat) "right_camera")).
Proof.
  intros Hl Hr El Er Vl Vr S0.
  assert (B : cfg_start_frame ov <= exact_position_max)
    by (unfold exact_position_max; lia).
  destruct (startup_opened_exact ov w pl pr fl fr Hl Hr El Er Vl Vr B)
    as (node & w0 & S & C & CR & FI & NL & NR & SK & _).
  assert (Z0 : Z.to_nat (cfg_start_frame ov) = 0%nat) by lia.
  assert (L0 : (0 <? cfg_start_frame ov) = false) by (apply Z.ltb_ge; exact S0).
  rewrite Z0 in NL, NR. rewrite L0 in SK.
  exists node, w0. split; [exact S|]. split; [exact SK|].
  split; [rewrite NL; reflexivity|]. split; [rewrite NR; reflexivity|].
  split; [exact FI|].
  assert (RM : Nat.min (remaining (capL node)) (remaining (capR node)) =
               Nat.min (length fl) (length fr)).
  { rewrite NL, NR. unfold remaining. cbn [vc_opened vc_frames vc_pos]. lia. }
  split.
  - intros fuel. rewrite (published_pairs_length clock fuel node w0 C), RM.
    reflexivity.
  - intros fuel k K.
    destruct (published_pairs_lookup clock fuel node w0 k C) as
      (fL & fR & GL & GR & E).
    { rewrite RM. exact K. }
    rewrite NL in GL. rewrite NR in GR. cbn [vc_frames vc_pos] in GL, GR.
    rewrite FI, CR in E. exists fL, fR.
    split; [exact GL|]. split; [exact GR|exact E].
Qed.

(** X9: from startup, a run publishes as many pairs as the shorter file
    has frames from where its capture stands after the constructor's seek,
    or as it has periods of fuel if that is less.  For a start_frame of at
    most 2^53 that is the number of frames the file has from start_frame
    on, and with start_frame at or past the end of either file the run
    reads both captures once, publishes nothing and stops in its first
    tick. *)
Theorem startup_run_publishes_the_frames_from_start_frame
    (ov : gmap string ParamValue) (w : World) (pl pr : string)
    (fl fr : list Frame) :
  truthy (cfg_left_video ov) = true ->
  truthy (cfg_right_video ov) = true ->
  expanduser (cfg_left_video ov) = Return pl ->
  expanduser (cfg_right_video ov) = Return pr ->
  videos pl = Some fl ->
  videos pr = Some fr ->
  exists node w0,
    startup expanduser videos far_seek ov w = (Return node, w0) /\
    (forall fuel : nat,
        length (published_pairs clock fuel node w0) =
          Nat.min fuel
            (Nat.min
               (length fl - seek_position far_seek fl (cfg_start_frame ov))
               (length fr - seek_position far_seek fr (cfg_start_frame ov)))) /\
    (cfg_start_frame ov <= exact_position_max ->
     forall fuel : nat,
       length (published_pairs clock fuel node w0) =
         Nat.min fuel
           (Nat.min (frames_from fl (cfg_start_frame ov))
                    (frames_from fr (cfg_start_frame ov)))) /\
    (cfg_start_frame ov <= exact_position_max ->
     Z.of_nat (Nat.min (length fl) (length fr)) <= cfg_start_frame ov ->
     forall fuel : nat,
       published_pairs clock (S fuel) node w0 = [] /\
       published (emitted w0 (spin clock (S fuel) node w0).2) = [] /\
       length (reads (emitted w0 (spin clock (S fuel) node w0).2)) = 2%nat /\
       sched_state (spin clock (S fuel) node w0).2 = STOPPED).
Proof.
  intros Hl Hr El Er Vl Vr.
  destruct (startup_opened ov w pl pr fl fr Hl Hr El Er Vl Vr)
    as (node & w0 & ST & C & CR & O & E & N).
  exists node, w0. split; [exact ST|].
  assert (G : forall fuel : nat,
             length (published_pairs clock fuel node w0) =
               Nat.min fuel
                 (Nat.min
                    (length fl
                     - seek_position far_seek fl (cfg_start_frame ov))
                    (length fr
                     - seek_position far_seek fr (cfg_start_frame ov)))).
  { intros fuel. rewrite (published_pairs_length clock fuel node w0 C), N.
    reflexivity. }
  split; [exact G|].
  assert (L : cfg_start_frame ov <= exact_position_max ->
              forall fuel : nat,
                length (published_pairs clock fuel node w0) =
                  Nat.min fuel
                    (Nat.min (frames_from fl (cfg_start_frame ov))
                             (frames_from fr (cfg_start_frame ov)))).
  { intros B fuel. rewrite G, !(seek_position_exact far_seek _ _ B).
    reflexivity. }
  split; [exact L|].
  intros B P fuel.
  assert (Z0 : Nat.min (frames_from fl (cfg_start_frame ov))
                       (frames_from fr (cfg_start_frame ov)) = 0%nat)
    by (unfold frames_from; lia).
  assert (P0 : published_pairs clock (S fuel) node w0 = []).
  { apply length_zero_iff_nil. rewrite (L B), Z0. lia. }
  split; [exact P0|].
  destruct (spin_returns clock (S fuel) node w0) as (n' & _ & _ & PB & _).
  split; [rewrite PB, P0; reflexivity|].
  assert (RM : Nat.min (remaining (capL node)) (remaining (capR node)) =
               0%nat).
  { rewrite N. cbn [capL capR]. rewrite !(remaining_sought far_seek _ _ B).
    exact Z0. }
  destruct (spin_reads_and_end_lines clock (S fuel) node w0 C) as [RD _].
  split; [rewrite RD, RM; cbn; lia|].
  unfold sched_state. rewrite (spin_ctx_after clock (S fuel) node w0 C), RM.
  case_decide; [reflexivity|lia].
Qed.

(** The world [main] leaves when startup succeeds. *)
Lemma main_after_startup (ov : gmap string ParamValue) (fuel : nat)
    (w w0 : World) (node : Node) :
  startup expanduser videos far_seek ov w = (Return node, w0) ->
  (main expanduser videos far_seek clock ov fuel w).2 =
    mkWorld CtxShutdown (clock_reads (spin clock fuel node w0).2)
      (out (spin clock fuel node w0).2
         ++ [EvRelease SideL; EvRelease SideR; EvDestroyNode;
             EvRclpyShutdown]).
Proof.
  intros H. unfold main. unfold bind at 1. rewrite H.
  destruct (spin_returns clock fuel node w0) as (n' & R & _).
  unfold try_finally, bind at 1.
  destruct (spin clock fuel node w0) as [r w1]. cbn in R. subst r.
  cbn. rewrite <- !app_assoc. reflexivity.
Qed.

(** What [main] appends to the trace when startup succeeds: the events of
    startup, those of the run, and the four of the way out. *)
Lemma main_emitted (ov : gmap string ParamValue) (fuel : nat) (w : World)
    (pl pr : string) (fl fr : list Frame) :
  truthy (cfg_left_video ov) = true ->
  truthy (cfg_right_video ov) = true ->
  expanduser (cfg_left_video ov) = Return pl ->
  expanduser (cfg_right_video ov) = Return pr ->
  videos pl = Some fl ->
  videos pr = Some fr ->
  exists node w0,
    startup expanduser videos far_seek ov w = (Return node, w0) /\
    ctx w0 = CtxOk /\
    ctx (main expanduser videos far_seek clock ov fuel w).2 = CtxShutdown /\
    emitted w (main expanduser videos far_seek clock ov fuel w).2 =
      (emitted w w0 ++ emitted w0 (spin clock fuel node w0).2)
      ++ [EvRelease SideL; EvRelease SideR; EvDestroyNode; EvRclpyShutdown] /\
    handle_open SideL (emitted w w0) = true /\
    handle_open SideR (emitted w w0) = true /\
    shutdowns (emitted w w0) = 0%nat /\
    List.filter is_release (emitted w w0) = [].
Proof.
  intros Hl Hr El Er Vl Vr.
  destruct (startup_opened ov w pl pr fl fr Hl Hr El Er Vl Vr)
    as (node & w0 & S & C & CR & O & E & N).
  exists node, w0.
  split; [exact S|]. split; [exact C|].
  rewrite (main_after_startup ov fuel w w0 node S).
  split; [reflexivity|].
  destruct (spin_returns clock fuel node w0) as (n' & _ & O2 & _).
  destruct (emitted_trans w w0 _ O O2) as [O3 E3].
  split.
  { apply emitted_app. cbn [out]. rewrite O3, E3, <- !app_assoc.
    reflexivity. }
  rewrite E. destruct (0 <? cfg_start_frame ov); repeat split; reflexivity.
Qed.

(** X10: whenever startup succeeds, however the run ends, by end of stream
    or by the operator's interrupt, the last four calls of [main] are the
    release of the left capture, the release of the right one, the
    destruction of the node and [rclpy.shutdown()]; both handles, open
    until then, are closed by them, nothing was released before, and the
    context is shut down at the end. *)
Theorem main_releases_both_captures_on_the_way_out
    (ov : gmap string ParamValue) (fuel : nat) (w : World)
    (pl pr : string) (fl fr : list Frame) :
  truthy (cfg_left_video ov) = true ->
  truthy (cfg_right_video ov) = true ->
  expanduser (cfg_left_video ov) = Return pl ->
  expanduser (cfg_right_video ov) = Return pr ->
  videos pl = Some fl ->
  videos pr = Some fr ->
  exists before,
    emitted w (main expanduser videos far_seek clock ov fuel w).2 =
      before ++ [EvRelease SideL; EvRelease SideR; EvDestroyNode;
                 EvRclpyShutdown] /\
    List.filter is_release before = [] /\
    handle_open SideL before = true /\
    handle_open SideR before = true /\
    handle_open SideL
      (emitted w (main expanduser videos far_seek clock ov fuel w).2) = false /\
    handle_open SideR
      (emitted w (main expanduser videos far_seek clock ov fuel w).2) = false /\
    sched_state (main expanduser videos far_seek clock ov fuel w).2 = STOPPED.
Proof.
  intros Hl Hr El Er Vl Vr.
  destruct (main_emitted ov fuel w pl pr fl fr Hl Hr El Er Vl Vr)
    as (node & w0 & S & C & C' & E & OL & OR & _ & NR).
  pose proof (spin_run_events clock fuel node w0) as RE.
  exists (emitted w w0 ++ emitted w0 (spin clock fuel node w0).2).
  split; [exact E|].
  destruct (run_events_are_no_others _ RE) as (NRel & _ & _).
  split; [rewrite List.filter_app, NR, NRel; reflexivity|].
  assert (HO : forall s,
             handle_open s
               (emitted w w0 ++ emitted w0 (spin clock fuel node w0).2) =
             handle_open s (emitted w w0)).
  { intros s. unfold handle_open. rewrite open_after_app.
    apply open_after_run_events, RE. }
  split; [rewrite HO; exact OL|]. split; [rewrite HO; exact OR|].
  rewrite E. unfold handle_open. rewrite !open_after_app.
  split; [reflexivity|]. split; [reflexivity|].
  unfold sched_state. rewrite C'. reflexivity.
Qed.

(** X11: over a [main] whose startup succeeds, with a start_frame of at
    most 2^53, [rclpy.shutdown()] is called twice when the run ends by the
    end of a stream, once by the tick that stops and once more on the way
    out, and once when the operator interrupts first; the end-of-video line
    is logged once in the first case and never in the second. *)
Theorem main_shuts_down_again_after_end_of_stream
    (ov : gmap string ParamValue) (fuel : nat) (w : World)
    (pl pr : string) (fl fr : list Frame) :
  truthy (cfg_left_video ov) = true ->
  truthy (cfg_right_video ov) = true ->
  expanduser (cfg_left_video ov) = Return pl ->
  expanduser (cfg_right_video ov) = Return pr ->
  videos pl = Some fl ->
  videos pr = Some fr ->
  cfg_start_frame ov <= exact_position_max ->
  shutdowns (emitted w (main expanduser videos far_seek clock ov fuel w).2) =
    (if decide (Nat.min (frames_from fl (cfg_start_frame ov))
                        (frames_from fr (cfg_start_frame ov)) < fuel)%nat
     then 2 else 1)%nat /\
  end_lines (emitted w (main expanduser videos far_seek clock ov fuel w).2) =
    (if decide (Nat.min (frames_from fl (cfg_start_frame ov))
                        (frames_from fr (cfg_start_frame ov)) < fuel)%nat
     then 1 else 0)%nat.
Proof.
  intros Hl Hr El Er Vl Vr B.
  destruct (main_emitted ov fuel w pl pr fl fr Hl Hr El Er Vl Vr)
    as (node & w0 & S & C & C' & E & _ & _ & SD & _).
  destruct (startup_opened_exact ov w pl pr fl fr Hl Hr El Er Vl Vr B)
    as (node' & w0' & S' & _ & _ & _ & NL & NR & _ & EN).
  rewrite S in S'. injection S' as <- <-.
  pose proof (spin_ctx_after clock fuel node w0 C) as A.
  destruct (spin_reads_and_end_lines clock fuel node w0 C) as [_ EL].
  assert (RM : Nat.min (remaining (capL node)) (remaining (capR node)) =
               Nat.min (frames_from fl (cfg_start_frame ov))
                       (frames_from fr (cfg_start_frame ov))).
  { rewrite NL, NR. reflexivity. }
  rewrite RM in A, EL.
  rewrite E, !shutdowns_app, !end_lines_app, SD, EN, EL.
  destruct (spin_shuts_down_once clock fuel node w0 C) as [[CO ->]|[CS ->]].
  - rewrite CO in A. case_decide; [discriminate A|]. split; reflexivity.
  - rewrite CS in A. case_decide; [|discriminate A]. split; reflexivity.
Qed.

(** X12: when both paths expand and the left file cannot be opened, the
    error names the left path, whether or not the right file opens; the
    right capture has been constructed all the same before the check,
    nothing releases it, and no timer is created. *)
Theorem left_open_failure_is_reported_first
    (ov : gmap string ParamValue) (fuel : nat) (w : World)
    (pl pr : string) :
  truthy (cfg_left_video ov) = true ->
  truthy (cfg_right_video ov) = true ->
  expanduser (cfg_left_video ov) = Return pl ->
  expanduser (cfg_right_video ov) = Return pr ->
  videos pl = None ->
  exists w',
    main expanduser videos far_seek clock ov fuel w =
      (Raise (RuntimeError ("Cannot open left video: " +:+ pl)), w') /\
    emitted w w' =
      [EvRclpyInit; EvCreatePublisher SideL 10; EvCreatePublisher SideR 10;
       EvOpen SideL pl false;
       EvOpen SideR pr (bool_decide (is_Some (videos pr)))] /\
    handle_open SideL (emitted w w') = false /\
    handle_open SideR (emitted w w') = bool_decide (is_Some (videos pr)) /\
    List.filter is_release (emitted w w') = [] /\
    existsb is_create_timer (emitted w w') = false /\
    ctx w' = CtxOk.
Proof.
  intros Hl Hr El Er Vl. eexists. split.
  - apply main_startup_raises. rewrite startup_setup.
    apply (setup_left_unopened expanduser videos far_seek _ _ pl pr _ _ _
             Hl Hr El Er Vl).
  - erewrite emitted_app by (cbn [out]; rewrite <- app_assoc; reflexivity).
    repeat split; reflexivity.
Qed.

(** X13: with only the two paths passed, the parameters take their
    declared defaults: the rate is 10.0 and the timer is created with the
    period 1.0 / 10.0, start_frame is 0, the index starts at 0 and no
    capture is sought. *)
Theorem parameters_left_out_take_their_defaults
    (ov : gmap string ParamValue) (w : World) (pl pr : string)
    (fl fr : list Frame) :
  truthy (cfg_left_video ov) = true ->
  truthy (cfg_right_video ov) = true ->
  expanduser (cfg_left_video ov) = Return pl ->
  expanduser (cfg_right_video ov) = Return pr ->
  videos pl = Some fl ->
  videos pr = Some fr ->
  ov !! "rate_hz" = None ->
  ov !! "start_frame" = None ->
  exists node w0,
    startup expanduser videos far_seek ov w = (Return node, w0) /\
    rate_hz node = 10%float /\
    dt node = (1 / 10)%float /\
    start_frame node = 0 /\
    frame_idx node = 0 /\
    vc_pos (capL node) = 0%nat /\ vc_pos (capR node) = 0%nat /\
    seeks (emitted w w0) = [] /\
    List.filter is_create_timer (emitted w w0) =
      [EvCreateTimer (1 / 10)%float] /\
    In (EvLog (LogPublishing 10%float 0)) (emitted w w0).
Proof.
  intros Hl Hr El Er Vl Vr R0 S0.
  destruct (startup_opened ov w pl pr fl fr Hl Hr El Er Vl Vr)
    as (node & w0 & S & C & CR & O & E & N).
  assert (ER : cfg_rate_hz ov = 10%float)
    by (unfold cfg_rate_hz, param; rewrite R0; reflexivity).
  assert (ES : cfg_start_frame ov = 0)
    by (unfold cfg_start_frame, param; rewrite S0; reflexivity).
  exists node, w0. split; [exact S|].
  rewrite E, N, ER, ES. cbn [rate_hz dt start_frame frame_idx capL capR vc_pos].
  assert (D : (1 / py_max 10 tenth)%float = (1 / 10)%float)
    by (vm_compute; reflexivity).
  rewrite D. repeat split; try reflexivity.
  cbn. do 9 right. left. reflexivity.
Qed.

(** X14: when a path begins with a user whose home directory cannot be
    determined, [expanduser] raises and [main] fails with that very error
    before any publisher, capture or timer is made: the trace holds
    [rclpy.init()] and nothing else.  The left path is expanded first, so
    its error is the one that comes out when both would fail. *)
Theorem unexpandable_path_fails_before_any_publisher
    (ov : gmap string ParamValue) (fuel : nat) (w : World) (e : Exception) :
  truthy (cfg_left_video ov) = true ->
  truthy (cfg_right_video ov) = true ->
  expanduser (cfg_left_video ov) = Raise e \/
  (exists pl, expanduser (cfg_left_video ov) = Return pl /\
              expanduser (cfg_right_video ov) = Raise e) ->
  exists w',
    main expanduser videos far_seek clock ov fuel w = (Raise e, w') /\
    emitted w w' = [EvRclpyInit] /\
    handle_open SideL (emitted w w') = false /\
    handle_open SideR (emitted w w') = false /\
    ctx w' = CtxOk.
Proof.
  intros Hl Hr H. eexists. split.
  - apply main_startup_raises. rewrite startup_setup.
    apply (setup_unexpanded expanduser videos far_seek _ _ _ _ _ e Hl Hr H).
  - erewrite emitted_app by reflexivity. repeat split; reflexivity.
Qed.

End Whole.

(** ** The further theorems at the concrete setting *)

Lemma run_publishes_min_witness :
  ctx Scenario.running = CtxOk /\
  length (published_pairs Scenario.clock 10 Scenario.node3 Scenario.running)
    = 2%nat.
Proof.
  split; [reflexivity|].
  destruct (run_publishes_min_of_fuel_and_frames_left Scenario.clock 10
              Scenario.node3 Scenario.running eq_refl) as (L & _).
  rewrite L. reflexivity.
Defined.

Lemma run_stops_witness :
  ctx Scenario.running = CtxOk /\
  sched_state (spin Scenario.clock 10 Scenario.node3 Scenario.running).2
    = STOPPED /\
  length (reads (emitted Scenario.running
                   (spin Scenario.clock 10 Scenario.node3
                      Scenario.running).2)) = 6%nat.
Proof.
  split; [reflexivity|].
  destruct (run_stops_when_a_source_gives_out Scenario.clock 10
              Scenario.node3 Scenario.running eq_refl) as (I & _ & R & _).
  split; [apply I; vm_compute; lia|]. rewrite R. reflexivity.
Defined.

Lemma pair_carries_frames_witness :
  truthy (cfg_left_video Scenario.overrides) = true /\
  truthy (cfg_right_video Scenario.overrides) = true /\
  Scenario.expanduser (cfg_left_video Scenario.overrides) =
    Return "left.mp4" /\
  Scenario.expanduser (cfg_right_video Scenario.overrides) =
    Return "right.mp4" /\
  Scenario.videos "left.mp4" = Some (Scenario.frames 5) /\
  Scenario.videos "right.mp4" = Some (Scenario.frames 10) /\
  0 <= cfg_start_frame Scenario.overrides <= exact_position_max /\
  exists node w0 fL fR,
    startup Scenario.expanduser Scenario.videos Scenario.far_seek
            Scenario.overrides Scenario.boot = (Return node, w0) /\
    seeks (emitted Scenario.boot w0) = [(SideL, 3); (SideR, 3)] /\
    Scenario.frames 5 !! 4%nat = Some fL /\
    Scenario.frames 10 !! 4%nat = Some fR /\
    published_pairs Scenario.clock 10 node w0 !! 1%nat =
      Some (4, stamped fL (Scenario.clock 1) "left_camera",
            stamped fR (Scenario.clock 1) "right_camera").
Proof.
  assert (Hl : truthy (cfg_left_video Scenario.overrides) = true)
    by (vm_compute; reflexivity).
  assert (Hr : truthy (cfg_right_video Scenario.overrides) = true)
    by (vm_compute; reflexivity).
  assert (El : Scenario.expanduser (cfg_left_video Scenario.overrides) =
               Return "left.mp4") by (vm_compute; reflexivity).
  assert (Er : Scenario.expanduser (cfg_right_video Scenario.overrides) =
               Return "right.mp4") by (vm_compute; reflexivity).
  assert (Vl : Scenario.videos "left.mp4" = Some (Scenario.frames 5))
    by (vm_compute; reflexivity).
  assert (Vr : Scenario.videos "right.mp4" = Some (Scenario.frames 10))
    by (vm_compute; reflexivity).
  assert (S0 : 0 <= cfg_start_frame Scenario.overrides <= exact_position_max)
    by (vm_compute; split; discriminate).
  split; [exact Hl|]. split; [exact Hr|]. split; [exact El|].
  split; [exact Er|]. split; [exact Vl|]. split; [exact Vr|].
  split; [exact S0|].
  destruct (pair_carries_the_frames_of_its_index Scenario.expanduser Scenario.videos
              Scenario.far_seek Scenario.clock Scenario.overrides Scenario.boot
              "left.mp4" "right.mp4" (Scenario.frames 5) (Scenario.frames 10)
              Hl Hr El Er Vl Vr S0)
    as (node & w0 & ST & SK & EX & _).
  destruct (EX 10%nat 1%nat) as (fL & fR & GL & GR & E);
    [vm_compute; lia|].
  exists node, w0, fL, fR. split; [exact ST|].
  split; [rewrite SK; vm_compute; reflexivity|].
  split; [exact GL|]. split; [exact GR|exact E].
Defined.

Lemma nonpositive_start_frame_witness :
  truthy (cfg_left_video Scenario.overrides_negative) = true /\
  truthy (cfg_right_video Scenario.overrides_negative) = true /\
  Scenario.expanduser (cfg_left_video Scenario.overrides_negative) =
    Return "left.mp4" /\
  Scenario.expanduser (cfg_right_video Scenario.overrides_negative) =
    Return "right.mp4" /\
  Scenario.videos "left.mp4" = Some (Scenario.frames 5) /\
  Scenario.videos "right.mp4" = Some (Scenario.frames 10) /\
  cfg_start_frame Scenario.overrides_negative <= 0 /\
  exists node w0 fL fR,
    startup Scenario.expanduser Scenario.videos Scenario.far_seek
            Scenario.overrides_negative Scenario.boot = (Return node, w0) /\
    vc_pos (capL node) = 0%nat /\
    length (published_pairs Scenario.clock 10 node w0) = 5%nat /\
    Scenario.frames 5 !! 0%nat = Some fL /\
    Scenario.frames 10 !! 0%nat = Some fR /\
    published_pairs Scenario.clock 10 node w0 !! 0%nat =
      Some (-2, stamped fL (Scenario.clock 0) "left_camera",
            stamped fR (Scenario.clock 0) "right_camera").
Proof.
  assert (Hl : truthy (cfg_left_video Scenario.overrides_negative) = true)
    by (vm_compute; reflexivity).
  assert (Hr : truthy (cfg_right_video Scenario.overrides_negative) = true)
    by (vm_compute; reflexivity).
  assert (El : Scenario.expanduser (cfg_left_video Scenario.overrides_negative) =
               Return "left.mp4") by (vm_compute; reflexivity).
  assert (Er : Scenario.expanduser (cfg_right_video Scenario.overrides_negative) =
               Return "right.mp4") by (vm_compute; reflexivity).
  assert (Vl : Scenario.videos "left.mp4" = Some (Scenario.frames 5))
    by (vm_compute; reflexivity).
  assert (Vr : Scenario.videos "right.mp4" = Some (Scenario.frames 10))
    by (vm_compute; reflexivity).
  assert (S0 : cfg_start_frame Scenario.overrides_negative <= 0)
    by (vm_compute; discriminate).
  split; [exact Hl|]. split; [exact Hr|]. split; [exact El|].
  split; [exact Er|]. split; [exact Vl|]. split; [exact Vr|].
  split; [exact S0|].
  destruct (nonpositive_start_frame_reads_from_the_first_frame
              Scenario.expanduser Scenario.videos
              Scenario.far_seek Scenario.clock Scenario.overrides_negative
              Scenario.boot "left.mp4" "right.mp4"
              (Scenario.frames 5) (Scenario.frames 10) Hl Hr El Er Vl Vr S0)
    as (node & w0 & ST & _ & PL & _ & _ & LN & EX).
  destruct (EX 10%nat 0%nat) as (fL & fR & GL & GR & E);
    [vm_compute; lia|].
  exists node, w0, fL, fR. split; [exact ST|]. split; [exact PL|].
  split; [rewrite LN; vm_compute; reflexivity|].
  split; [exact GL|]. split; [exact GR|exact E].
Defined.

Lemma startup_run_publishes_witness :
  truthy (cfg_left_video Scenario.overrides) = true /\
  truthy (cfg_right_video Scenario.overrides) = true /\
  Scenario.expanduser (cfg_left_video Scenario.overrides) =
    Return "left.mp4" /\
  Scenario.expanduser (cfg_right_video Scenario.overrides) =
    Return "right.mp4" /\
  Scenario.videos "left.mp4" = Some (Scenario.frames 5) /\
  Scenario.videos "right.mp4" = Some (Scenario.frames 10) /\
  exists node w0,
    startup Scenario.expanduser Scenario.videos Scenario.far_seek
            Scenario.overrides Scenario.boot = (Return node, w0) /\
    length (published_pairs Scenario.clock 10 node w0) = 2%nat.
Proof.
  assert (Hl : truthy (cfg_left_video Scenario.overrides) = true)
    by (vm_compute; reflexivity).
  assert (Hr : truthy (cfg_right_video Scenario.overrides) = true)
    by (vm_compute; reflexivity).
  assert (El : Scenario.expanduser (cfg_left_video Scenario.overrides) =
               Return "left.mp4") by (vm_compute; reflexivity).
  assert (Er : Scenario.expanduser (cfg_right_video Scenario.overrides) =
               Return "right.mp4") by (vm_compute; reflexivity).
  assert (Vl : Scenario.videos "left.mp4" = Some (Scenario.frames 5))
    by (vm_compute; reflexivity).
  assert (Vr : Scenario.videos "right.mp4" = Some (Scenario.frames 10))
    by (vm_compute; reflexivity).
  split; [exact Hl|]. split; [exact Hr|]. split; [exact El|].
  split; [exact Er|]. split; [exact Vl|]. split; [exact Vr|].
  destruct (startup_run_publishes_the_frames_from_start_frame
              Scenario.expanduser Scenario.videos
              Scenario.far_seek Scenario.clock Scenario.overrides
              Scenario.boot "left.mp4" "right.mp4"
              (Scenario.frames 5) (Scenario.frames 10) Hl Hr El Er Vl Vr)
    as (node & w0 & ST & _ & L & _).
  exists node, w0. split; [exact ST|].
  rewrite L by (vm_compute; discriminate). vm_compute. reflexivity.
Defined.

Lemma main_releases_witness :
  truthy (cfg_left_video Scenario.overrides) = true /\
  truthy (cfg_right_video Scenario.overrides) = true /\
  Scenario.expanduser (cfg_left_video Scenario.overrides) =
    Return "left.mp4" /\
  Scenario.expanduser (cfg_right_video Scenario.overrides) =
    Return "right.mp4" /\
  Scenario.videos "left.mp4" = Some (Scenario.frames 5) /\
  Scenario.videos "right.mp4" = Some (Scenario.frames 10) /\
  handle_open SideL
    (emitted Scenario.boot
       (main Scenario.expanduser Scenario.videos Scenario.far_seek
             Scenario.clock Scenario.overrides 10 Scenario.boot).2) = false /\
  handle_open SideR
    (emitted Scenario.boot
       (main Scenario.expanduser Scenario.videos Scenario.far_seek
             Scenario.clock Scenario.overrides 10 Scenario.boot).2) = false.
Proof.
  assert (Hl : truthy (cfg_left_video Scenario.overrides) = true)
    by (vm_compute; reflexivity).
  assert (Hr : truthy (cfg_right_video Scenario.overrides) = true)
    by (vm_compute; reflexivity).
  assert (El : Scenario.expanduser (cfg_left_video Scenario.overrides) =
               Return "left.mp4") by (vm_compute; reflexivity).
  assert (Er : Scenario.expanduser (cfg_right_video Scenario.overrides) =
               Return "right.mp4") by (vm_compute; reflexivity).
  assert (Vl : Scenario.videos "left.mp4" = Some (Scenario.frames 5))
    by (vm_compute; reflexivity).
  assert (Vr : Scenario.videos "right.mp4" = Some (Scenario.frames 10))
    by (vm_compute; reflexivity).
  split; [exact Hl|]. split; [exact Hr|]. split; [exact El|].
  split; [exact Er|]. split; [exact Vl|]. split; [exact Vr|].
  destruct (main_releases_both_captures_on_the_way_out
              Scenario.expanduser Scenario.videos
              Scenario.far_seek Scenario.clock Scenario.overrides 10
              Scenario.boot "left.mp4" "right.mp4"
              (Scenario.frames 5) (Scenario.frames 10) Hl Hr El Er Vl Vr)
    as (before & _ & _ & _ & _ & CL & CR & _).
  split; [exact CL|exact CR].
Defined.

Lemma main_shuts_down_again_witness :
  truthy (cfg_left_video Scenario.overrides) = true /\
  truthy (cfg_right_video Scenario.overrides) = true /\
  Scenario.expanduser (cfg_left_video Scenario.overrides) =
    Return "left.mp4" /\
  Scenario.expanduser (cfg_right_video Scenario.overrides) =
    Return "right.mp4" /\
  Scenario.videos "left.mp4" = Some (Scenario.frames 5) /\
  Scenario.videos "right.mp4" = Some (Scenario.frames 10) /\
  cfg_start_frame Scenario.overrides <= exact_position_max /\
  shutdowns
    (emitted Scenario.boot
       (main Scenario.expanduser Scenario.videos Scenario.far_seek
             Scenario.clock Scenario.overrides 10 Scenario.boot).2) = 2%nat /\
  shutdowns
    (emitted Scenario.boot
       (main Scenario.expanduser Scenario.videos Scenario.far_seek
             Scenario.clock Scenario.overrides 1 Scenario.boot).2) = 1%nat.
Proof.
  assert (Hl : truthy (cfg_left_video Scenario.overrides) = true)
    by (vm_compute; reflexivity).
  assert (Hr : truthy (cfg_right_video Scenario.overrides) = true)
    by (vm_compute; reflexivity).
  assert (El : Scenario.expanduser (cfg_left_video Scenario.overrides) =
               Return "left.mp4") by (vm_compute; reflexivity).
  assert (Er : Scenario.expanduser (cfg_right_video Scenario.overrides) =
               Return "right.mp4") by (vm_compute; reflexivity).
  assert (Vl : Scenario.videos "left.mp4" = Some (Scenario.frames 5))
    by (vm_compute; reflexivity).
  assert (Vr : Scenario.videos "right.mp4" = Some (Scenario.frames 10))
    by (vm_compute; reflexivity).
  assert (B : cfg_start_frame Scenario.overrides <= exact_position_max)
    by (vm_compute; discriminate).
  split; [exact Hl|]. split; [exact Hr|]. split; [exact El|].
  split; [exact Er|]. split; [exact Vl|]. split; [exact Vr|].
  split; [exact B|].
  split.
  - destruct (main_shuts_down_again_after_end_of_stream
                Scenario.expanduser Scenario.videos
              Scenario.far_seek Scenario.clock Scenario.overrides 10
                Scenario.boot "left.mp4" "right.mp4"
                (Scenario.frames 5) (Scenario.frames 10)
                Hl Hr El Er Vl Vr B) as [SD _].
    rewrite SD. vm_compute. reflexivity.
  - destruct (main_shuts_down_again_after_end_of_stream
                Scenario.expanduser Scenario.videos
              Scenario.far_seek Scenario.clock Scenario.overrides 1
                Scenario.boot "left.mp4" "right.mp4"
                (Scenario.frames 5) (Scenario.frames 10)
                Hl Hr El Er Vl Vr B) as [SD _].
    rewrite SD. vm_compute. reflexivity.
Defined.

Lemma left_open_failure_witness :
  truthy (cfg_left_video Scenario.overrides_bad_both) = true /\
  truthy (cfg_right_video Scenario.overrides_bad_both) = true /\
  Scenario.expanduser (cfg_left_video Scenario.overrides_bad_both) =
    Return "missing.mp4" /\
  Scenario.expanduser (cfg_right_video Scenario.overrides_bad_both) =
    Return "gone.mp4" /\
  Scenario.videos "missing.mp4" = None /\
  exists w',
    main Scenario.expanduser Scenario.videos Scenario.far_seek Scenario.clock
         Scenario.overrides_bad_both 10 Scenario.boot =
      (Raise (RuntimeError "Cannot open left video: missing.mp4"), w').
Proof.
  assert (Hl : truthy (cfg_left_video Scenario.overrides_bad_both) = true)
    by (vm_compute; reflexivity).
  assert (Hr : truthy (cfg_right_video Scenario.overrides_bad_both) = true)
    by (vm_compute; reflexivity).
  assert (El : Scenario.expanduser (cfg_left_video Scenario.overrides_bad_both)
               = Return "missing.mp4") by (vm_compute; reflexivity).
  assert (Er : Scenario.expanduser
                 (cfg_right_video Scenario.overrides_bad_both)
               = Return "gone.mp4") by (vm_compute; reflexivity).
  assert (Vl : Scenario.videos "missing.mp4" = None)
    by (vm_compute; reflexivity).
  split; [exact Hl|]. split; [exact Hr|]. split; [exact El|].
  split; [exact Er|]. split; [exact Vl|].
  destruct (left_open_failure_is_reported_first
              Scenario.expanduser Scenario.videos
              Scenario.far_seek Scenario.clock Scenario.overrides_bad_both 10
              Scenario.boot "missing.mp4" "gone.mp4" Hl Hr El Er Vl)
    as (w' & M & _).
  exists w'. exact M.
Defined.

Lemma parameters_defaults_witness :
  truthy (cfg_left_video Scenario.overrides_paths_only) = true /\
  truthy (cfg_right_video Scenario.overrides_paths_only) = true /\
  Scenario.expanduser (cfg_left_video Scenario.overrides_paths_only) =
    Return "left.mp4" /\
  Scenario.expanduser (cfg_right_video Scenario.overrides_paths_only) =
    Return "right.mp4" /\
  Scenario.videos "left.mp4" = Some (Scenario.frames 5) /\
  Scenario.videos "right.mp4" = Some (Scenario.frames 10) /\
  Scenario.overrides_paths_only !! "rate_hz" = None /\
  Scenario.overrides_paths_only !! "start_frame" = None /\
  exists node w0,
    startup Scenario.expanduser Scenario.videos Scenario.far_seek
            Scenario.overrides_paths_only Scenario.boot = (Return node, w0) /\
    dt node = (1 / 10)%float.
Proof.
  assert (Hl : truthy (cfg_left_video Scenario.overrides_paths_only) = true)
    by (vm_compute; reflexivity).
  assert (Hr : truthy (cfg_right_video Scenario.overrides_paths_only) = true)
    by (vm_compute; reflexivity).
  assert (El : Scenario.expanduser (cfg_left_video Scenario.overrides_paths_only) =
               Return "left.mp4") by (vm_compute; reflexivity).
  assert (Er : Scenario.expanduser (cfg_right_video Scenario.overrides_paths_only) =
               Return "right.mp4") by (vm_compute; reflexivity).
  assert (Vl : Scenario.videos "left.mp4" = Some (Scenario.frames 5))
    by (vm_compute; reflexivity).
  assert (Vr : Scenario.videos "right.mp4" = Some (Scenario.frames 10))
    by (vm_compute; reflexivity).
  assert (R0 : Scenario.overrides_paths_only !! "rate_hz" = None)
    by (vm_compute; reflexivity).
  assert (S0 : Scenario.overrides_paths_only !! "start_frame" = None)
    by (vm_compute; reflexivity).
  split; [exact Hl|]. split; [exact Hr|]. split; [exact El|].
  split; [exact Er|]. split; [exact Vl|]. split; [exact Vr|].
  split; [exact R0|]. split; [exact S0|].
  destruct (parameters_left_out_take_their_defaults
              Scenario.expanduser Scenario.videos
              Scenario.far_seek Scenario.overrides_paths_only
              Scenario.boot "left.mp4" "right.mp4"
              (Scenario.frames 5) (Scenario.frames 10)
              Hl Hr El Er Vl Vr R0 S0) as (node & w0 & ST & _ & D & _).
  exists node, w0. split; [exact ST|exact D].
Defined.

Lemma unexpandable_path_witness :
  truthy (cfg_left_video Scenario.overrides_unknown_home_right) = true /\
  truthy (cfg_right_video Scenario.overrides_unknown_home_right) = true /\
  (Scenario.expanduser (cfg_left_video Scenario.overrides_unknown_home_right) =
     Raise (RuntimeError "Could not determine home directory.") \/
   exists pl,
     Scenario.expanduser
       (cfg_left_video Scenario.overrides_unknown_home_right) = Return pl /\
     Scenario.expanduser
       (cfg_right_video Scenario.overrides_unknown_home_right) =
       Raise (RuntimeError "Could not determine home directory.")) /\
  exists w',
    main Scenario.expanduser Scenario.videos Scenario.far_seek Scenario.clock
         Scenario.overrides_unknown_home_right 10 Scenario.boot =
      (Raise (RuntimeError "Could not determine home directory."), w') /\
    emitted Scenario.boot w' = [EvRclpyInit].
Proof.
  assert (Hl : truthy (cfg_left_video Scenario.overrides_unknown_home_right)
               = true) by (vm_compute; reflexivity).
  assert (Hr : truthy (cfg_right_video Scenario.overrides_unknown_home_right)
               = true) by (vm_compute; reflexivity).
  assert (H : Scenario.expanduser
                (cfg_left_video Scenario.overrides_unknown_home_right) =
                Raise (RuntimeError "Could not determine home directory.") \/
              exists pl,
                Scenario.expanduser
                  (cfg_left_video Scenario.overrides_unknown_home_right) =
                  Return pl /\
                Scenario.expanduser
                  (cfg_right_video Scenario.overrides_unknown_home_right) =
                  Raise (RuntimeError "Could not determine home directory.")).
  { right. exists "left.mp4". split; vm_compute; reflexivity. }
  split; [exact Hl|]. split; [exact Hr|]. split; [exact H|].
  destruct (unexpandable_path_fails_before_any_publisher
              Scenario.expanduser Scenario.videos
              Scenario.far_seek Scenario.clock Scenario.overrides_unknown_home_right 10
              Scenario.boot _ Hl Hr H) as (w' & M & E & _).
  exists w'. split; [exact M|exact E].
Defined.
